(** * Worker topology synthesis of [docker/configure_workers_and_start.py]

    A shallow embedding of [generate_worker_files] and of the helpers it
    calls ([log], [convert]), and the properties of what a run leaves
    behind: the shared homeserver patch, the nginx site, the supervisord
    programs and the per-worker descriptors handed to jinja2.

    Conventions of the embedding.
    - Python [str] is [string], a sequence of bytes; requests are taken to
      be ASCII, so [str.strip] only has to know the ASCII white space.
    - Python [int] is [Z]: port numbers never wrap.
    - The module-level dict [WORKERS_CONFIG] is an association list: its
      iteration order (insertion order) is observable through ['*'].
    - The file system is a finite map from paths to contents, with a set
      of directories beside it.  Reading a path that is not in the map
      raises; appending creates the file.  Directories are recorded when
      the script makes them and are never a reason to fail.
    - PyYAML and jinja2 are collaborators of the script and stay abstract:
      they are the three operations of the class [Externals].
    - Exceptions are the [Raise] results of the monad [result].
    - The world also keeps what was printed and the dicts [convert] was
      called with: the second is a trace, the script has no such list.

    The file has three parts: the script with its entry point [main], the
    readers that give the emitted text its meaning (sections and options
    for supervisord, location rules for nginx), and the properties. *)

From Stdlib Require Import Ascii.
From stdpp Require Import gmap strings list fin_maps pretty.

Local Open Scope Z_scope.

(** ** Characters the templates need *)

Definition nl : string := String "010"%char "".
Definition dquote : string := String "034"%char "".

(** ** Exceptions *)

Inductive exn : Type :=
  | FileNotFoundError (path : string)
  | YAMLError
  | AttributeError
  | TypeError.

Inductive result (A : Type) : Type :=
  | Ok (a : A)
  | Raise (e : exn).
Arguments Ok {A} a.
Arguments Raise {A} e.

(** Sequencing: the first exception ends the computation. *)
#[global] Instance result_bind : MBind result := λ A B k m,
  match m with
  | Ok a => k a
  | Raise e => Raise e
  end.
#[global] Instance result_ret : MRet result := λ A a, Ok a.
#[global] Instance result_fmap : FMap result := λ A B f m,
  match m with
  | Ok a => Ok (f a)
  | Raise e => Raise e
  end.

(** [for x in xs: st = body(st, x)], stopping at the first exception. *)
Fixpoint for_each {S X : Type} (body : S → X → result S) (xs : list X) (st : S)
  : result S :=
  match xs with
  | [] => Ok st
  | x :: xs' => st' ← body st x ; for_each body xs' st'
  end.

(** ** Python string methods *)

(** [str.isspace] on one ASCII character.  Python's [strip] also removes
    the white space outside ASCII (U+0085, U+00A0, ...), which is not
    covered here: a name is taken with such characters left in place. *)
Definition py_isspace (c : ascii) : bool :=
  match c with
  | "009" | "010" | "011" | "012" | "013"
  | "028" | "029" | "030" | "031" | " " => true
  | _ => false
  end%char.

Fixpoint lstrip (s : string) : string :=
  match s with
  | EmptyString => EmptyString
  | String c s' => if py_isspace c then lstrip s' else s
  end.

Fixpoint rstrip (s : string) : string :=
  match s with
  | EmptyString => EmptyString
  | String c s' =>
      match rstrip s' with
      | EmptyString => if py_isspace c then EmptyString else String c EmptyString
      | r => String c r
      end
  end.

(** [s.strip()] *)
Definition strip (s : string) : string := rstrip (lstrip s).

(** [s.split(sep)] for a one-character separator: never the empty list. *)
Fixpoint split (sep : ascii) (s : string) : list string :=
  match s with
  | EmptyString => [EmptyString]
  | String c s' =>
      if decide (c = sep) then EmptyString :: split sep s'
      else match split sep s' with
           | w :: ws => String c w :: ws
           | [] => [String c EmptyString]
           end
  end.

(** ** The worker registry *)

Record worker_def : Type := WorkerDef {
  app : string;
  listener_resources : list string;
  endpoint_patterns : list string;
  shared_extra_conf : string;
}.

Definition DEFAULT_LISTENER_RESOURCES : list string := ["client"; "federation"].

Definition WORKERS_CONFIG : list (string * worker_def) := [
  ("pusher", {|
     app := "synapse.app.pusher";
     listener_resources := [];
     endpoint_patterns := [];
     shared_extra_conf := "start_pushers: false" |});
  ("user_dir", {|
     app := "synapse.app.user_dir";
     listener_resources := DEFAULT_LISTENER_RESOURCES;
     endpoint_patterns := [
       "^/_matrix/client/(api/v1|r0|unstable)/user_directory/search$"
     ];
     shared_extra_conf := "update_user_directory: false" |});
  ("media_repository", {|
     app := "synapse.app.media_repository";
     listener_resources := ["media"];
     endpoint_patterns := [
       "^/_synapse/admin/v1/purge_media_cache$";
       "^/_synapse/admin/v1/room/.*/media.*$";
       "^/_synapse/admin/v1/user/.*/media.*$";
       "^/_synapse/admin/v1/media/.*$";
       "^/_synapse/admin/v1/quarantine_media/.*$"
     ];
     shared_extra_conf := "enable_media_repo: false" |});
  ("appservice", {|
     app := "synapse.app.appservice";
     listener_resources := [];
     endpoint_patterns := [];
     shared_extra_conf := "notify_appservices: false" |});
  ("federation_sender", {|
     app := "synapse.app.federation_sender";
     listener_resources := [];
     endpoint_patterns := [];
     shared_extra_conf := "send_federation: false" |});
  ("synchrotron", {|
     app := "synapse.app.generic_worker";
     listener_resources := DEFAULT_LISTENER_RESOURCES;
     endpoint_patterns := [
       "^/_matrix/client/(v2_alpha|r0)/sync$";
       "^/_matrix/client/(api/v1|v2_alpha|r0)/events$";
       "^/_matrix/client/(api/v1|r0)/initialSync$";
       "^/_matrix/client/(api/v1|r0)/rooms/[^/]+/initialSync$"
     ];
     shared_extra_conf := "" |});
  ("federation_reader", {|
     app := "synapse.app.generic_worker";
     listener_resources := DEFAULT_LISTENER_RESOURCES;
     endpoint_patterns := [
       "^/_matrix/federation/(v1|v2)/event/";
       "^/_matrix/federation/(v1|v2)/state/";
       "^/_matrix/federation/(v1|v2)/state_ids/";
       "^/_matrix/federation/(v1|v2)/backfill/";
       "^/_matrix/federation/(v1|v2)/get_missing_events/";
       "^/_matrix/federation/(v1|v2)/publicRooms";
       "^/_matrix/federation/(v1|v2)/query/";
       "^/_matrix/federation/(v1|v2)/make_join/";
       "^/_matrix/federation/(v1|v2)/make_leave/";
       "^/_matrix/federation/(v1|v2)/send_join/";
       "^/_matrix/federation/(v1|v2)/send_leave/";
       "^/_matrix/federation/(v1|v2)/invite/";
       "^/_matrix/federation/(v1|v2)/query_auth/";
       "^/_matrix/federation/(v1|v2)/event_auth/";
       "^/_matrix/federation/(v1|v2)/exchange_third_party_invite/";
       "^/_matrix/federation/(v1|v2)/user/devices/";
       "^/_matrix/federation/(v1|v2)/get_groups_publicised$";
       "^/_matrix/key/v2/query"
     ];
     shared_extra_conf := "" |});
  ("federation_inbound", {|
     app := "synapse.app.generic_worker";
     listener_resources := DEFAULT_LISTENER_RESOURCES;
     endpoint_patterns := ["/_matrix/federation/(v1|v2)/send/"];
     shared_extra_conf := "" |})
].

(** [d.get(key)] on a dict kept in insertion order. *)
Fixpoint dict_get {V : Type} (d : list (string * V)) (key : string) : option V :=
  match d with
  | [] => None
  | (k, v) :: d' => if decide (k = key) then Some v else dict_get d' key
  end.

(** [d.keys()], in insertion order. *)
Definition dict_keys {V : Type} (d : list (string * V)) : list string := d.*1.

(** The dict [worker_config] of the loop: a copy of the registry entry,
    updated with ["name"], ["port"] and ["config_path"]. *)
Record worker_config : Type := WorkerConfig {
  wc_app : string;
  wc_listener_resources : list string;
  wc_endpoint_patterns : list string;
  wc_shared_extra_conf : string;
  wc_name : string;
  wc_port : Z;
  wc_config_path : string;
}.

(** [worker_config.copy()] followed by the three [update] calls. *)
Definition copy_update (d : worker_def) (name : string) (port : Z)
    (config_path : string) : worker_config :=
  {| wc_app := app d;
     wc_listener_resources := listener_resources d;
     wc_endpoint_patterns := endpoint_patterns d;
     wc_shared_extra_conf := shared_extra_conf d;
     wc_name := name;
     wc_port := port;
     wc_config_path := config_path |}.

(** ** YAML values, as [yaml.safe_load] returns them *)

#[local] Set Warnings "-register-all".
Inductive yaml : Type :=
  | YNull
  | YBool (b : bool)
  | YInt (z : Z)
  | YStr (s : string)
  | YList (l : list yaml)
  | YMap (m : list (string * yaml)).

(** Python truthiness, the test of [if original_listeners:]. *)
Definition truthy (v : yaml) : bool :=
  match v with
  | YNull => false
  | YBool b => b
  | YInt z => negb (z =? 0)
  | YStr s => negb (String.eqb s "")
  | YList l => match l with [] => false | _ => true end
  | YMap m => match m with [] => false | _ => true end
  end.

(** [original_config.get("listeners")]: only a dict has [get]; a missing key
    gives [None]. *)
Definition yaml_get (v : yaml) (key : string) : result yaml :=
  match v with
  | YMap m => Ok (default YNull (dict_get m key))
  | _ => Raise AttributeError
  end.

(** [listeners += v]: [list.__iadd__] extends with any iterable. *)
Definition list_iadd (l : list yaml) (v : yaml) : result (list yaml) :=
  match v with
  | YList l' => Ok (l ++ l')
  | YStr s => Ok (l ++ ((λ c, YStr (String c "")) <$> String.list_ascii_of_string s))
  | YMap m => Ok (l ++ (YStr <$> dict_keys m))
  | YNull | YBool _ | YInt _ => Raise TypeError
  end.

(** ** The collaborators *)

Class Externals : Type := {
  (** [yaml.safe_load(stream)]; [None] when the document does not parse. *)
  yaml_safe_load : string → option yaml;
  (** [yaml.dump(value)] *)
  yaml_dump : yaml → string;
  (** [jinja2.Template(template, autoescape=True).render] on the keys of
      [environ]; taken to return for every template, a template jinja2
      refuses is not covered *)
  jinja_render : string → worker_config → string;
}.

(** ** The world the script runs in *)

Record world : Type := World {
  files : gmap string string;
  dirs : gset string;
  (** the lines printed so far, oldest first *)
  stdout : list string;
  (** the dicts [convert] was called with so far, oldest first, each with
      the path of the file written from it *)
  descriptors : list (string * worker_config);
}.

Definition set_files (f : gmap string string → gmap string string) (w : world) : world :=
  {| files := f (files w); dirs := dirs w; stdout := stdout w;
     descriptors := descriptors w |}.

(** [print(txt)] *)
Definition print (txt : string) (w : world) : world :=
  {| files := files w; dirs := dirs w; stdout := stdout w ++ [txt];
     descriptors := descriptors w |}.

(** [log(txt)] *)
Definition log (txt : string) (w : world) : world := print txt w.

(** [open(path).read()] *)
Definition read_file (path : string) (w : world) : result string :=
  match files w !! path with
  | Some content => Ok content
  | None => Raise (FileNotFoundError path)
  end.

(** [open(path, "w").write(txt)] *)
Definition write_file (path txt : string) (w : world) : world :=
  set_files (insert path txt) w.

(** [open(path, "a").write(txt)].  Like [write_file], [makedirs] and
    [mkdir] below it is taken to go through: a missing parent directory,
    a file in the place of a directory, permissions and a full disk are not
    covered.  A run that returns here may raise [OSError] there; a run
    that returns there returns here, in the world described. *)
Definition append_file (path txt : string) (w : world) : world :=
  set_files (λ fs, <[path := default "" (fs !! path) +:+ txt]> fs) w.

(** [os.makedirs(path, exist_ok=True)]; the parents are not tracked, and
    the call is taken to go through. *)
Definition makedirs (path : string) (w : world) : world :=
  {| files := files w; dirs := {[path]} ∪ dirs w; stdout := stdout w;
     descriptors := descriptors w |}.

(** [os.path.exists(path)] *)
Definition path_exists (path : string) (w : world) : bool :=
  bool_decide (path ∈ dirs w) || bool_decide (is_Some (files w !! path)).

(** [os.mkdir(path)], taken to go through; the script calls it on a path
    that does not exist. *)
Definition mkdir (path : string) (w : world) : world :=
  {| files := files w; dirs := {[path]} ∪ dirs w; stdout := stdout w;
     descriptors := descriptors w |}.

Section Script.
Context `{E : Externals}.

(** [convert(src, dst, environ)] *)
Definition convert (src dst : string) (environ : worker_config) (w : world)
  : result world :=
  template ← read_file src w ;
  let rendered := jinja_render template environ in
  let w := print rendered w in
  let w := write_file dst rendered w in
  Ok {| files := files w; dirs := dirs w; stdout := stdout w;
        descriptors := descriptors w ++ [(dst, environ)] |}.

(** *** The literals of [generate_worker_files] *)

Definition replication_listener : yaml :=
  YMap [
    ("port", YInt 9093);
    ("bind_address", YStr "127.0.0.1");
    ("type", YStr "http");
    ("resources", YList [YMap [("names", YList [YStr "replication"])]])
  ].

Definition redis_config : string := "
redis:
    enabled: true
".

(** The first value of [supervisord_config]; a backslash at the end of a
    line of the Python literal joins it with the next one. *)
Definition supervisord_base (config_path : string) : string :=
  "
[supervisord]
nodaemon=true

[program:nginx]
command=/usr/sbin/nginx -g " +:+ dquote +:+ "daemon off;" +:+ dquote +:+ "
priority=500
stdout_logfile=/dev/stdout
stdout_logfile_maxbytes=0
stderr_logfile=/dev/stderr
stderr_logfile_maxbytes=0
username=www-data
autorestart=true

[program:synapse_main]
command=/usr/local/bin/python -m synapse.app.homeserver     --config-path=" +:+ dquote +:+ config_path +:+ dquote +:+ "     --config-path=/conf/workers/shared.yaml
priority=1
# Log startup failures to supervisord's stdout/err
# Regular synapse logs will still go in the configured data directory
stdout_logfile=/dev/stdout
stdout_logfile_maxbytes=0
stderr_logfile=/dev/stderr
stderr_logfile_maxbytes=0
autorestart=unexpected
exitcodes=0

".

(** The block a worker adds to [supervisord_config] ([format_map]). *)
Definition worker_program (wc : worker_config) : string :=
  "
[program:synapse_" +:+ wc_name wc +:+ "]
command=/usr/local/bin/python -m " +:+ wc_app wc +:+ "     --config-path=" +:+ dquote +:+ wc_config_path wc +:+ dquote +:+ "     --config-path=/conf/workers/shared.yaml     --config-path=/conf/workers/" +:+ wc_name wc +:+ ".yaml
autorestart=unexpected
priority=500
exitcodes=0
stdout_logfile=/dev/stdout
stdout_logfile_maxbytes=0
stderr_logfile=/dev/stderr
stderr_logfile_maxbytes=0".

Definition nginx_config_template_header : string := "
server {
    # List on an unoccupied port number
    listen 8080;
    listen [::]:8080;

    server_name localhost;

    # Nginx by default only allows file uploads up to 1M in size
    # Increase client_max_body_size to match max_upload_size defined in homeserver.yaml
    client_max_body_size 100M;
    ".

Definition nginx_config_template_end : string := "
    # Send all other traffic to the main process
    location ~* ^(\/_matrix|\/_synapse) {
        proxy_pass http://localhost:8008;
        proxy_set_header X-Forwarded-For $remote_addr;
    }
}
".

(** The rule a pattern adds to [nginx_config_body] ([%] formatting). *)
Definition nginx_location (pattern : string) (port : Z) : string :=
  "
    location ~* " +:+ pattern +:+ " {
        proxy_pass http://localhost:" +:+ pretty port +:+ ";
        proxy_set_header X-Forwarded-For $remote_addr;
    }
".

(** *** The local variables the loop updates *)

Record locals : Type := Locals {
  worker_port : Z;
  homeserver_config : string;
  supervisord_config : string;
  nginx_config_body : string;
}.

(** [environ.get("SYNAPSE_WORKERS")] and the three branches on it. *)
Definition read_worker_types (environ : gmap string string) : list string :=
  match environ !! "SYNAPSE_WORKERS" with
  | None => []
  | Some worker_types =>
      if decide (worker_types = "*") then dict_keys WORKERS_CONFIG
      else split ","%char worker_types
  end.

(** One iteration of [for worker_type in worker_types]. *)
Definition worker_iteration (config_path : string) (st : locals * world)
    (worker_type : string) : result (locals * world) :=
  let '(lo, w) := st in
  let worker_type := strip worker_type in
  match dict_get WORKERS_CONFIG worker_type with
  | None =>
      Ok (lo, log (worker_type +:+ " is a wrong worker type ! It will be ignored") w)
  | Some d =>
      let worker_name := worker_type in
      let worker_config :=
        copy_update d worker_name (worker_port lo) config_path in
      let homeserver_config :=
        homeserver_config lo +:+ (wc_shared_extra_conf worker_config +:+ nl) in
      let supervisord_config :=
        supervisord_config lo +:+ worker_program worker_config in
      let nginx_config_body :=
        foldl (λ body pattern, body +:+ nginx_location pattern (worker_port lo))
              (nginx_config_body lo) (wc_endpoint_patterns worker_config) in
      w ← convert "/conf/worker.yaml.j2"
                  ("/conf/workers/" +:+ worker_name +:+ ".yaml")
                  worker_config w ;
      Ok ({| worker_port := worker_port lo + 1;
             homeserver_config := homeserver_config;
             supervisord_config := supervisord_config;
             nginx_config_body := nginx_config_body |}, w)
  end.

(** The listener list: the replication listener, then those of the
    original config when there are any. *)
Definition build_listeners (original_config : yaml) : result (list yaml) :=
  let listeners := [replication_listener] in
  original_listeners ← yaml_get original_config "listeners" ;
  if truthy original_listeners then list_iadd listeners original_listeners
  else Ok listeners.

(** [generate_worker_files(environ, config_path, data_dir)] *)
Definition generate_worker_files (environ : gmap string string)
    (config_path data_dir : string) (w : world) : result world :=
  file_stream ← read_file config_path w ;
  original_config ←
    match yaml_safe_load file_stream with
    | Some v => Ok v
    | None => Raise YAMLError
    end ;
  listeners ← build_listeners original_config ;
  let worker_types := read_worker_types environ in
  let w := makedirs "/conf/workers" w in
  '(lo, w) ← for_each (worker_iteration config_path) worker_types
       ({| worker_port := 18009;
           homeserver_config :=
             yaml_dump (YMap [("listeners", YList listeners)]) +:+ redis_config;
           supervisord_config := supervisord_base config_path;
           nginx_config_body := "" |}, w) ;
  let w := append_file "/conf/workers/shared.yaml"
             (nl +:+ homeserver_config lo) w in
  let w := append_file "/etc/nginx/conf.d/matrix-synapse.conf"
             (nginx_config_template_header +:+ nginx_config_body lo
                +:+ nginx_config_template_end) w in
  let w := append_file "/etc/supervisor/conf.d/supervisord.conf"
             (supervisord_config lo) w in
  let log_dir := data_dir +:+ "/logs" in
  let w := if path_exists log_dir w then w else mkdir log_dir w in
  Ok w.

End Script.

(** ** Reading the run: the request and the paths *)

Definition template_path : string := "/conf/worker.yaml.j2".
Definition shared_path : string := "/conf/workers/shared.yaml".
Definition nginx_path : string := "/etc/nginx/conf.d/matrix-synapse.conf".
Definition supervisord_path : string := "/etc/supervisor/conf.d/supervisord.conf".
Definition descriptor_path (name : string) : string :=
  "/conf/workers/" +:+ name +:+ ".yaml".

(** The names of a request that the registry knows, in request order. *)
Definition valid_names (worker_types : list string) : list string :=
  filter (λ name, is_Some (dict_get WORKERS_CONFIG name)) (strip <$> worker_types).

(** The worker instances of a request: one per known name, numbered from
    [port] on. *)
Fixpoint instances (config_path : string) (port : Z) (worker_types : list string)
  : list worker_config :=
  match worker_types with
  | [] => []
  | worker_type :: rest =>
      match dict_get WORKERS_CONFIG (strip worker_type) with
      | Some d =>
          copy_update d (strip worker_type) port config_path
            :: instances config_path (port + 1) rest
      | None => instances config_path port rest
      end
  end.

(** [s1 + s2 + ...] *)
Definition concat_str (l : list string) : string := foldr String.append "" l.

(** The rules one worker adds to the nginx body. *)
Definition worker_locations (wc : worker_config) : string :=
  concat_str ((λ pattern, nginx_location pattern (wc_port wc))
                <$> wc_endpoint_patterns wc).

(** The content of a file, the empty string when there is none yet. *)
Definition content (path : string) (w : world) : string :=
  default "" (files w !! path).

(** Stand-ins for PyYAML and jinja2, to run the script on examples: the
    loader knows two documents, the dumper shows the listeners it is given
    by their number, the renderer appends name and port to the template. *)
Definition example_externals : Externals := {|
  yaml_safe_load := λ stream,
    if decide (stream = "{}") then Some (YMap [])
    else if decide (stream = "listeners: [main]")
         then Some (YMap [("listeners", YList [YStr "main"])])
         else None;
  yaml_dump := λ v,
    match v with
    | YMap [(key, YList l)] => key +:+ ": " +:+ pretty (length l) +:+ nl
    | _ => "?"
    end;
  jinja_render := λ template wc,
    template +:+ wc_name wc +:+ ":" +:+ pretty (wc_port wc);
|}.

(** A stand-in for PyYAML that takes every stream for the same document. *)
Definition example_loader (document : yaml) : Externals := {|
  yaml_safe_load := λ _, Some document;
  yaml_dump := yaml_dump (Externals := example_externals);
  jinja_render := jinja_render (Externals := example_externals);
|}.

(** A world with a base config and the worker template, nothing else. *)
Definition example_world : world := {|
  files := {[ "/data/homeserver.yaml" := "listeners: [main]";
              "/conf/worker.yaml.j2" := "worker " ]};
  dirs := {[ "/data" ]};
  stdout := [];
  descriptors := [];
|}.

(** What [log] prints for a name the registry does not know. *)
Definition complaint (worker_type : string) : string :=
  strip worker_type +:+ " is a wrong worker type ! It will be ignored".

(** Two worlds with the same artifacts: they differ in what was printed
    only. *)
Definition same_artifacts (w1 w2 : world) : Prop :=
  files w1 = files w2 ∧ dirs w1 = dirs w2 ∧ descriptors w1 = descriptors w2.

Section Outcome.
Context `{E : Externals}.

(** The files the loop leaves: each instance's descriptor, rendered from
    the template, a later instance overwriting an earlier one of the same
    name. *)
Definition loop_files (template : string) (insts : list worker_config)
    (fs : gmap string string) : gmap string string :=
  foldl (λ fs wc, <[descriptor_path (wc_name wc) := jinja_render template wc]> fs)
        fs insts.

(** What the loop prints: a rendered descriptor per known name, a
    complaint per unknown one. *)
Fixpoint loop_prints (config_path template : string) (port : Z)
    (worker_types : list string) : list string :=
  match worker_types with
  | [] => []
  | worker_type :: rest =>
      match dict_get WORKERS_CONFIG (strip worker_type) with
      | Some d =>
          jinja_render template
            (copy_update d (strip worker_type) port config_path)
            :: loop_prints config_path template (port + 1) rest
      | None => complaint worker_type :: loop_prints config_path template port rest
      end
  end.

(** The text a run appends to each of the three shared files. *)
Definition emitted_shared (listeners : list yaml) (insts : list worker_config)
  : string :=
  nl +:+ ((yaml_dump (YMap [("listeners", YList listeners)]) +:+ redis_config)
            +:+ concat_str ((λ wc, wc_shared_extra_conf wc +:+ nl) <$> insts)).

Definition emitted_nginx (insts : list worker_config) : string :=
  nginx_config_template_header
    +:+ concat_str (worker_locations <$> insts)
    +:+ nginx_config_template_end.

Definition emitted_supervisord (config_path : string)
    (insts : list worker_config) : string :=
  supervisord_base config_path +:+ concat_str (worker_program <$> insts).

(** When a run goes through: the base config is there, parses to a dict
    whose listeners can be added to a list, and the template is there as
    soon as one worker needs it. *)
Record ready (environ : gmap string string) (config_path : string) (w : world)
    (original_config : yaml) (listeners : list yaml) : Prop := Ready {
  ready_config : ∃ file_stream,
    files w !! config_path = Some file_stream
    ∧ yaml_safe_load file_stream = Some original_config;
  ready_listeners : build_listeners original_config = Ok listeners;
  ready_template :
    instances config_path 18009 (read_worker_types environ) ≠ []
    → is_Some (files w !! template_path);
}.

(** What a run that goes through leaves in the world [w'], read off the
    world [w] it started in. *)
Record outcome (environ : gmap string string) (config_path data_dir : string)
    (listeners : list yaml) (w w' : world) : Prop := Outcome {
  out_shared :
    files w' !! shared_path
    = Some (content shared_path w
              +:+ emitted_shared listeners
                    (instances config_path 18009 (read_worker_types environ)));
  out_nginx :
    files w' !! nginx_path
    = Some (content nginx_path w
              +:+ emitted_nginx
                    (instances config_path 18009 (read_worker_types environ)));
  out_supervisord :
    files w' !! supervisord_path
    = Some (content supervisord_path w
              +:+ emitted_supervisord config_path
                    (instances config_path 18009 (read_worker_types environ)));
  out_other : ∀ path,
    path ≠ shared_path → path ≠ nginx_path → path ≠ supervisord_path →
    files w' !! path
    = loop_files (content template_path w)
        (instances config_path 18009 (read_worker_types environ))
        (files w) !! path;
  out_descriptors :
    descriptors w'
    = descriptors w
        ++ ((λ wc, (descriptor_path (wc_name wc), wc))
              <$> instances config_path 18009 (read_worker_types environ));
  out_stdout :
    stdout w'
    = stdout w
        ++ loop_prints config_path (content template_path w) 18009
             (read_worker_types environ);
  out_dirs :
    dirs w'
    = if bool_decide (is_Some (files w' !! (data_dir +:+ "/logs")))
      then {["/conf/workers"]} ∪ dirs w
      else {[data_dir +:+ "/logs"]} ∪ ({["/conf/workers"]} ∪ dirs w);
}.

End Outcome.

(** The listeners a base config declares: those of its ["listeners"] list,
    none when the key is missing or null. *)
Definition declared_listeners (original_config : yaml) : option (list yaml) :=
  match original_config with
  | YMap m =>
      match dict_get m "listeners" with
      | None | Some YNull => Some []
      | Some (YList l) => Some l
      | Some _ => None
      end
  | _ => None
  end.

(** [",".join(names)] *)
Fixpoint join_commas (names : list string) : string :=
  match names with
  | [] => ""
  | [name] => name
  | name :: rest => name +:+ "," +:+ join_commas rest
  end.

(** The paths a run writes to. *)
Definition output_paths (environ : gmap string string) : list string :=
  shared_path :: nginx_path :: supervisord_path
    :: (descriptor_path <$> valid_names (read_worker_types environ)).

(** ** Reading the emitted files back

    The nginx site and the supervisord file are text; what they mean to
    their readers is recovered line by line. *)

(** [s.split("\n")] *)
Definition lines (s : string) : list string := split "010"%char s.

(** ["\n".join(ls)] *)
Fixpoint unlines (ls : list string) : string :=
  match ls with
  | [] => ""
  | [l] => l
  | l :: ls' => l +:+ nl +:+ unlines ls'
  end.

Fixpoint contains_char (c : ascii) (s : string) : bool :=
  match s with
  | EmptyString => false
  | String c' s' => bool_decide (c' = c) || contains_char c s'
  end.

(** A string without a line break. *)
Definition single_line (s : string) : Prop := contains_char "010"%char s = false.

(** [s.removeprefix(prefix)], when [s] starts with it. *)
Fixpoint strip_prefix (prefix s : string) : option string :=
  match prefix, s with
  | EmptyString, _ => Some s
  | String a prefix', String b s' =>
      if decide (a = b) then strip_prefix prefix' s' else None
  | String _ _, EmptyString => None
  end.

(** [s.removesuffix(suffix)], when [s] ends with it. *)
Fixpoint strip_suffix (suffix s : string) : option string :=
  if decide (s = suffix) then Some EmptyString
  else match s with
       | EmptyString => None
       | String c s' => String c <$> strip_suffix suffix s'
       end.

(** The part of [s] before and after the first [c]. *)
Fixpoint partition (c : ascii) (s : string) : option (string * string) :=
  match s with
  | EmptyString => None
  | String c' s' =>
      if decide (c' = c) then Some (EmptyString, s')
      else prod_map (String c') id <$> partition c s'
  end.

(** A decimal numeral. *)
Fixpoint parse_digits (acc : N) (s : string) : option N :=
  match s with
  | EmptyString => Some acc
  | String c s' =>
      d ← Ascii.is_nat c; parse_digits (10 * acc + N.of_nat d)%N s'
  end.

Definition parse_number (s : string) : option N :=
  match s with
  | EmptyString => None
  | _ => parse_digits 0 s
  end.

(** *** supervisord: sections of options *)

(** [[name]] opens a section. *)
Definition section_header (line : string) : option string :=
  strip_prefix "[" line ≫= strip_suffix "]".

(** [key=value], unless the line is a comment or continues the one before. *)
Definition option_line (line : string) : option (string * string) :=
  match line with
  | EmptyString => None
  | String c _ =>
      if bool_decide (c = "#"%char) || bool_decide (c = ";"%char) || py_isspace c
      then None
      else prod_map strip strip <$> partition "="%char line
  end.

(** Reading one more line in front of what has been read: a header takes
    the options read so far as its section, an option joins them, any
    other line is skipped.  The sections are those of the text, in file
    order, one per header: a header met twice gives two sections here,
    where supervisord keeps one section under that name.  A value is taken
    whole; the script writes no comment after a value. *)
Definition ini_step (line : string)
    (read : list (string * string) * list (string * list (string * string)))
  : list (string * string) * list (string * list (string * string)) :=
  match section_header line with
  | Some name => ([], (name, read.1) :: read.2)
  | None =>
      match option_line line with
      | Some kv => (kv :: read.1, read.2)
      | None => read
      end
  end.

(** The options before the first header, and the sections after it. *)
Definition ini_read (ls : list string)
  : list (string * string) * list (string * list (string * string)) :=
  foldr ini_step ([], []) ls.

Definition ini_sections (text : string) : list (string * list (string * string)) :=
  (ini_read (lines text)).2.

(** A [[program:x]] section, with its start order and restart options. *)
Record program : Type := Program {
  p_name : string;
  p_priority : option N;
  p_autorestart : option string;
  p_exitcodes : option (list N);
}.

Definition program_of (section : string * list (string * string)) : option program :=
  name ← strip_prefix "program:" section.1;
  Some {| p_name := name;
          p_priority := dict_get section.2 "priority" ≫= parse_number;
          p_autorestart := dict_get section.2 "autorestart";
          p_exitcodes :=
            codes ← dict_get section.2 "exitcodes";
            mapM (λ code, parse_number (strip code)) (split ","%char codes) |}.

(** The programs of a supervisord file, in file order. *)
Definition programs (text : string) : list program :=
  omap program_of (ini_sections text).

(** supervisord starts programs in the order of their [priority] values,
    the lower value first.  Between two programs of the same value the
    relation holds in neither direction: the priorities do not order
    them. *)
Definition starts_before (p q : program) : Prop :=
  ∃ a b, p_priority p = Some a ∧ p_priority q = Some b ∧ (a < b)%N.

(** supervisord's restart rule: [autorestart=true] restarts after every
    exit, [autorestart=unexpected] after an exit whose code is not among
    [exitcodes], [autorestart=false] never. *)
Definition restarts (p : program) (exit_code : N) : option bool :=
  policy ← p_autorestart p;
  if decide (policy = "true") then Some true
  else if decide (policy = "false") then Some false
  else if decide (policy = "unexpected")
       then codes ← p_exitcodes p; Some (bool_decide (exit_code ∉ codes))
       else None.

(** *** nginx: location rules *)

(** The pattern of a [location ~* pattern {] line. *)
Definition location_line (line : string) : option string :=
  strip_prefix "location ~* " (lstrip line) ≫= strip_suffix " {".

(** The target of a [proxy_pass target;] line. *)
Definition proxy_pass_line (line : string) : option string :=
  strip_prefix "proxy_pass " (lstrip line) ≫= strip_suffix ";".

(** The rules of a site, in file order: each location line with the
    [proxy_pass] on the line after it. *)
Fixpoint nginx_read (ls : list string) : list (string * string) :=
  match ls with
  | [] => []
  | l :: ls' =>
      match location_line l, ls' with
      | Some pattern, l' :: _ =>
          match proxy_pass_line l' with
          | Some target => (pattern, target) :: nginx_read ls'
          | None => nginx_read ls'
          end
      | _, _ => nginx_read ls'
      end
  end.

Definition nginx_rules (text : string) : list (string * string) :=
  nginx_read (lines text).

(** The rule of the main process. *)
Definition catch_all : string * string :=
  ("^(\/_matrix|\/_synapse)", "http://localhost:8008").

(** The rules of one worker. *)
Definition worker_rules (wc : worker_config) : list (string * string) :=
  (λ pattern, (pattern, "http://localhost:" +:+ pretty (wc_port wc)))
    <$> wc_endpoint_patterns wc.

(** *** The emitted texts, line by line *)

Definition supervisord_base_lines (config_path : string) : list string := [
  "";
  "[supervisord]";
  "nodaemon=true";
  "";
  "[program:nginx]";
  "command=/usr/sbin/nginx -g " +:+ dquote +:+ "daemon off;" +:+ dquote;
  "priority=500";
  "stdout_logfile=/dev/stdout";
  "stdout_logfile_maxbytes=0";
  "stderr_logfile=/dev/stderr";
  "stderr_logfile_maxbytes=0";
  "username=www-data";
  "autorestart=true";
  "";
  "[program:synapse_main]";
  "command=/usr/local/bin/python -m synapse.app.homeserver     --config-path="
    +:+ dquote +:+ config_path +:+ dquote
    +:+ "     --config-path=/conf/workers/shared.yaml";
  "priority=1";
  "# Log startup failures to supervisord's stdout/err";
  "# Regular synapse logs will still go in the configured data directory";
  "stdout_logfile=/dev/stdout";
  "stdout_logfile_maxbytes=0";
  "stderr_logfile=/dev/stderr";
  "stderr_logfile_maxbytes=0";
  "autorestart=unexpected";
  "exitcodes=0";
  "";
  ""
].

Definition worker_program_lines (wc : worker_config) : list string := [
  "[" +:+ ("program:synapse_" +:+ wc_name wc) +:+ "]";
  "command=/usr/local/bin/python -m " +:+ wc_app wc
    +:+ "     --config-path=" +:+ dquote +:+ wc_config_path wc +:+ dquote
    +:+ "     --config-path=/conf/workers/shared.yaml"
    +:+ "     --config-path=/conf/workers/" +:+ wc_name wc +:+ ".yaml";
  "autorestart=unexpected";
  "priority=500";
  "exitcodes=0";
  "stdout_logfile=/dev/stdout";
  "stdout_logfile_maxbytes=0";
  "stderr_logfile=/dev/stderr";
  "stderr_logfile_maxbytes=0"
].

Definition nginx_location_lines (pattern : string) (port : Z) : list string := [
  "    location ~* " +:+ pattern +:+ " {";
  "        proxy_pass " +:+ ("http://localhost:" +:+ pretty port) +:+ ";";
  "        proxy_set_header X-Forwarded-For $remote_addr;";
  "    }";
  ""
].

Definition nginx_end_lines : list string := [
  "    # Send all other traffic to the main process";
  "    location ~* ^(\/_matrix|\/_synapse) {";
  "        proxy_pass http://localhost:8008;";
  "        proxy_set_header X-Forwarded-For $remote_addr;";
  "    }";
  "}";
  ""
].

(** The three programs as supervisord reads them. *)
Definition nginx_program : program :=
  {| p_name := "nginx"; p_priority := Some 500%N;
     p_autorestart := Some "true"; p_exitcodes := None |}.

Definition main_program : program :=
  {| p_name := "synapse_main"; p_priority := Some 1%N;
     p_autorestart := Some "unexpected"; p_exitcodes := Some [0%N] |}.

Definition worker_entry (wc : worker_config) : program :=
  {| p_name := "synapse_" +:+ wc_name wc; p_priority := Some 500%N;
     p_autorestart := Some "unexpected"; p_exitcodes := Some [0%N] |}.

(** The section of a worker as [ini_read] returns it. *)
Definition worker_section (wc : worker_config)
  : string * list (string * string) :=
  ("program:synapse_" +:+ wc_name wc,
   (foldr ini_step ([], []) (tail (worker_program_lines wc))).1).

(** ** The entry point

    [main] runs two programs besides the script's own work: [/start.py]
    to make a base config when there is none, and supervisord at the end.
    What a program does to the world is the one operation of the class
    [Processes]; the commands run are kept in a list, oldest first. *)

Class Processes : Type := {
  (** the world a command leaves when it exits with code 0, under the
      environment it inherits; [None] when it exits with another code *)
  run_process : list string → gmap string string → world → option world;
}.

Inductive main_exn : Type :=
  | ScriptError (e : exn)
  | CalledProcessError (cmd : list string)
  | SystemExit (code : Z).

(** A computation of [main]: still going, with a value and the commands
    run so far, or dead, with the exception and the commands run so far. *)
Inductive main_result (A : Type) : Type :=
  | Going (a : A) (calls : list (list string))
  | Died (e : main_exn) (calls : list (list string)).
Arguments Going {A} a calls.
Arguments Died {A} e calls.

(** [error(txt)]: log, then [sys.exit(2)]. *)
Definition error (txt : string) (w : world) (calls : list (list string))
  : world * main_result world :=
  let w := log txt w in
  (w, Died (SystemExit 2) calls).

Definition start_py_command : list string :=
  ["/usr/local/bin/python"; "/start.py"; "migrate_config"].

Definition supervisord_command : list string := ["/usr/bin/supervisord"].

Section Main.
Context `{E : Externals} `{P : Processes}.

(** [subprocess.check_output(cmd)]: the child inherits the environment of
    the script; a non-zero exit code raises. *)
Definition check_output (cmd : list string) (environ : gmap string string)
    (w : world) (calls : list (list string)) : main_result world :=
  match run_process cmd environ w with
  | Some w' => Going w' (calls ++ [cmd])
  | None => Died (CalledProcessError cmd) (calls ++ [cmd])
  end.

(** [generate_base_homeserver_config()] *)
Definition generate_base_homeserver_config (environ : gmap string string)
    (w : world) (calls : list (list string)) : main_result world :=
  check_output start_py_command environ w calls.

(** [start_supervisord()] *)
Definition start_supervisord (environ : gmap string string)
    (w : world) (calls : list (list string)) : main_result world :=
  check_output supervisord_command environ w calls.

(** [main(args, environ)], called with [os.environ]: the assignment to
    [environ] is seen by the children. *)
Definition main (args : list string) (environ : gmap string string) (w : world)
  : main_result (gmap string string * world) :=
  let config_dir := default "/data" (environ !! "SYNAPSE_CONFIG_DIR") in
  let config_path :=
    default (config_dir +:+ "/homeserver.yaml")
            (environ !! "SYNAPSE_CONFIG_PATH") in
  let data_dir := default "/data" (environ !! "SYNAPSE_DATA_DIR") in
  let environ := <["SYNAPSE_NO_TLS" := "yes"]> environ in
  match
    (if path_exists config_path w then Going w []
     else
       let w := log "Generating base homeserver config" w in
       generate_base_homeserver_config environ w [])
  with
  | Died e calls => Died e calls
  | Going w calls =>
      match generate_worker_files environ config_path data_dir w with
      | Raise e => Died (ScriptError e) calls
      | Ok w =>
          match start_supervisord environ w calls with
          | Died e calls => Died e calls
          | Going w calls => Going (environ, w) calls
          end
      end
  end.

End Main.

(** The config path and the data directory [main] works with. *)
Definition main_config_path (environ : gmap string string) : string :=
  default (default "/data" (environ !! "SYNAPSE_CONFIG_DIR") +:+ "/homeserver.yaml")
          (environ !! "SYNAPSE_CONFIG_PATH").

Definition main_data_dir (environ : gmap string string) : string :=
  default "/data" (environ !! "SYNAPSE_DATA_DIR").

(** The world [main] hands to [generate_worker_files] and the commands run
    to get there: the world it was started in when something exists at the
    config path, what [/start.py] made of it otherwise. *)
Definition bootstrapped `{P : Processes} (environ : gmap string string)
    (w w0 : world) (calls : list (list string)) : Prop :=
  if path_exists (main_config_path environ) w
  then w0 = w ∧ calls = []
  else run_process start_py_command (<["SYNAPSE_NO_TLS" := "yes"]> environ)
         (log "Generating base homeserver config" w) = Some w0
       ∧ calls = [start_py_command].

(** Stand-in programs, to run [main] on examples: [/start.py] writes a
    base config where [main] will look for it, supervisord leaves the
    world alone, any other command fails. *)
Definition example_processes : Processes := {|
  run_process := λ cmd environ w,
    if decide (cmd = start_py_command)
    then Some (write_file (main_config_path environ) "{}" w)
    else if decide (cmd = supervisord_command) then Some w
    else None
|}.

(** *** supervisord: the command of a program *)

Definition program_command (section : string * list (string * string))
  : option (string * string) :=
  name ← strip_prefix "program:" section.1;
  command ← dict_get section.2 "command";
  Some (name, command).

(** The programs of a supervisord file with their commands, in file
    order. *)
Definition commands (text : string) : list (string * string) :=
  omap program_command (ini_sections text).

Definition nginx_command : string :=
  "/usr/sbin/nginx -g " +:+ dquote +:+ "daemon off;" +:+ dquote.

(** The command of the main process: the base config, then the shared
    patch. *)
Definition main_command (config_path : string) : string :=
  "/usr/local/bin/python -m synapse.app.homeserver"
    +:+ "     --config-path=" +:+ dquote +:+ config_path +:+ dquote
    +:+ "     --config-path=/conf/workers/shared.yaml".

(** The command of a worker: the base config, then the shared patch, then
    the worker's own file. *)
Definition worker_command (wc : worker_config) : string :=
  "/usr/local/bin/python -m " +:+ wc_app wc
    +:+ "     --config-path=" +:+ dquote +:+ wc_config_path wc +:+ dquote
    +:+ "     --config-path=/conf/workers/shared.yaml"
    +:+ "     --config-path=" +:+ descriptor_path (wc_name wc).

(** * Properties *)

#[local] Arguments dict_get : simpl never.

(** ** Strings *)

Lemma app_cons (c : ascii) (a b : string) : String c a +:+ b = String c (a +:+ b).
Proof. reflexivity. Qed.

Lemma app_nil_r (a : string) : a +:+ "" = a.
Proof. induction a as [|c a IH]; [done|]. by rewrite app_cons, IH. Qed.

Lemma app_assoc_str (a b c : string) : (a +:+ b) +:+ c = a +:+ (b +:+ c).
Proof. induction a as [|x a IH]; [done|]. by rewrite !app_cons, IH. Qed.

Lemma concat_str_app (l1 l2 : list string) :
  concat_str (l1 ++ l2) = concat_str l1 +:+ concat_str l2.
Proof.
  induction l1 as [|x l1 IH]; [done|].
  unfold concat_str in *. simpl. by rewrite IH, app_assoc_str.
Qed.

Lemma foldl_app_str {A : Type} (f : A → string) (l : list A) (acc : string) :
  foldl (λ body x, body +:+ f x) acc l = acc +:+ concat_str (f <$> l).
Proof.
  revert acc. induction l as [|x l IH]; intros acc; simpl.
  - by rewrite app_nil_r.
  - rewrite IH. unfold concat_str. simpl. by rewrite app_assoc_str.
Qed.

(** ** Paths *)

Lemma descriptor_not_template name : descriptor_path name ≠ template_path.
Proof. unfold descriptor_path. cbv [String.append]. discriminate. Qed.

Lemma descriptor_not_nginx name : descriptor_path name ≠ nginx_path.
Proof. unfold descriptor_path. cbv [String.append]. discriminate. Qed.

Lemma descriptor_not_supervisord name : descriptor_path name ≠ supervisord_path.
Proof. unfold descriptor_path. cbv [String.append]. discriminate. Qed.

(** A registry lookup that succeeds names one of the eight entries. *)
Lemma dict_get_registered name d :
  dict_get WORKERS_CONFIG name = Some d → (name, d) ∈ WORKERS_CONFIG.
Proof.
  generalize WORKERS_CONFIG as reg.
  induction reg as [|[k v] reg IH]; unfold dict_get; fold @dict_get; [done|].
  case_decide as Hk.
  - intros [= <-]. subst. left.
  - intros H. right. by apply IH.
Qed.

Lemma descriptor_not_shared name d :
  dict_get WORKERS_CONFIG name = Some d → descriptor_path name ≠ shared_path.
Proof.
  intros H%dict_get_registered. unfold WORKERS_CONFIG in H.
  repeat (apply elem_of_cons in H as [[= -> _]|H]; [by vm_compute|]).
  by apply elem_of_nil in H.
Qed.

(** ** The instances of a request *)

Lemma instances_names config_path port worker_types :
  wc_name <$> instances config_path port worker_types = valid_names worker_types.
Proof.
  unfold valid_names. revert port.
  induction worker_types as [|t ts IH]; intros port; [done|]. simpl.
  rewrite filter_cons. destruct (dict_get WORKERS_CONFIG (strip t)) as [d|] eqn:Hd.
  - case_decide as Hs; [|destruct Hs; by exists d]. simpl. by rewrite IH.
  - case_decide as Hs; [|apply IH]. destruct Hs as [d Hs]. congruence.
Qed.

Lemma instances_ports config_path port worker_types :
  wc_port <$> instances config_path port worker_types
  = seqZ port (Z.of_nat (length (valid_names worker_types))).
Proof.
  rewrite <-(instances_names config_path port), length_fmap. revert port.
  induction worker_types as [|t ts IH]; intros port; [done|]. simpl.
  destruct (dict_get WORKERS_CONFIG (strip t)) as [d|]; [|apply IH].
  simpl length. rewrite Nat2Z.inj_succ, seqZ_cons by lia.
  simpl. f_equal. rewrite IH. f_equal; lia.
Qed.

Lemma instances_registered config_path port worker_types wc :
  wc ∈ instances config_path port worker_types →
  ∃ d, dict_get WORKERS_CONFIG (wc_name wc) = Some d
       ∧ wc = copy_update d (wc_name wc) (wc_port wc) config_path.
Proof.
  revert port. induction worker_types as [|t ts IH]; intros port; simpl.
  - by intros ?%elem_of_nil.
  - destruct (dict_get WORKERS_CONFIG (strip t)) as [d|] eqn:Hd; [|apply IH].
    intros [->|H]%elem_of_cons; [|by eapply IH]. by exists d.
Qed.

Section Run.
Context `{E : Externals}.

(** ** The loop *)

Lemma loop_files_lookup_other template insts fs path :
  (∀ wc, wc ∈ insts → descriptor_path (wc_name wc) ≠ path) →
  loop_files template insts fs !! path = fs !! path.
Proof.
  unfold loop_files. revert fs.
  induction insts as [|wc insts IH]; intros fs Hne; [done|]. simpl.
  rewrite IH by (intros; apply Hne; by right).
  apply lookup_insert_ne, Hne. by left.
Qed.

Lemma for_each_worker_iteration config_path worker_types lo w :
  (instances config_path (worker_port lo) worker_types ≠ []
   → is_Some (files w !! template_path)) →
  let insts := instances config_path (worker_port lo) worker_types in
  let template := content template_path w in
  for_each (worker_iteration config_path) worker_types (lo, w)
  = Ok ({| worker_port := worker_port lo + Z.of_nat (length insts);
           homeserver_config :=
             homeserver_config lo
               +:+ concat_str ((λ wc, wc_shared_extra_conf wc +:+ nl) <$> insts);
           supervisord_config :=
             supervisord_config lo +:+ concat_str (worker_program <$> insts);
           nginx_config_body :=
             nginx_config_body lo +:+ concat_str (worker_locations <$> insts) |},
        {| files := loop_files template insts (files w);
           dirs := dirs w;
           stdout :=
             stdout w ++ loop_prints config_path template (worker_port lo)
                                     worker_types;
           descriptors :=
             descriptors w
               ++ ((λ wc, (descriptor_path (wc_name wc), wc)) <$> insts) |}).
Proof.
  revert lo w. induction worker_types as [|t ts IH]; intros lo w; simpl.
  - intros _. destruct lo, w; simpl. unfold concat_str; simpl.
    by rewrite Z.add_0_r, !app_nil_r, !(right_id_L [] (++)).
  - unfold worker_iteration at 1.
    destruct (dict_get WORKERS_CONFIG (strip t)) as [d|] eqn:Hd;
      intros Htpl; simpl.
    + destruct Htpl as [tpl Htpl]; [done|].
      unfold convert, read_file. change "/conf/worker.yaml.j2" with template_path.
      change ("/conf/workers/" +:+ strip t +:+ ".yaml")
        with (descriptor_path (strip t)).
      rewrite Htpl. simpl.
      rewrite IH; simpl.
      2:{ intros _. rewrite lookup_insert_ne by apply descriptor_not_template.
          by rewrite Htpl. }
      unfold content; simpl.
      rewrite lookup_insert_ne by apply descriptor_not_template.
      rewrite Htpl; simpl. f_equal. f_equal.
      * f_equal.
        -- lia.
        -- unfold concat_str; simpl. by rewrite !app_assoc_str.
        -- unfold concat_str; simpl. by rewrite !app_assoc_str.
        -- rewrite foldl_app_str. unfold worker_locations at 2, concat_str; simpl.
           by rewrite !app_assoc_str.
      * f_equal.
        -- by rewrite <-app_assoc.
        -- by rewrite <-app_assoc.
    + rewrite IH by done. simpl. f_equal. f_equal. f_equal.
      by rewrite <-app_assoc.
Qed.

(** The path literals of the script, folded into their names. *)
Ltac fold_paths :=
  change "/conf/workers/shared.yaml" with shared_path;
  change "/etc/nginx/conf.d/matrix-synapse.conf" with nginx_path;
  change "/etc/supervisor/conf.d/supervisord.conf" with supervisord_path.

(** ** The whole run *)

Lemma loop_files_shared template config_path port worker_types fs :
  loop_files template (instances config_path port worker_types) fs !! shared_path
  = fs !! shared_path.
Proof.
  apply loop_files_lookup_other.
  intros wc (d & Hd & _)%instances_registered. by eapply descriptor_not_shared.
Qed.

Lemma loop_files_nginx template insts fs :
  loop_files template insts fs !! nginx_path = fs !! nginx_path.
Proof. apply loop_files_lookup_other. intros. apply descriptor_not_nginx. Qed.

Lemma loop_files_supervisord template insts fs :
  loop_files template insts fs !! supervisord_path = fs !! supervisord_path.
Proof. apply loop_files_lookup_other. intros. apply descriptor_not_supervisord. Qed.

Lemma generate_worker_files_ok environ config_path data_dir w original_config
    listeners :
  ready environ config_path w original_config listeners →
  ∃ w', generate_worker_files environ config_path data_dir w = Ok w'
        ∧ outcome environ config_path data_dir listeners w w'.
Proof.
  intros [(file_stream & Hfile & Hyaml) Hlisteners Htemplate].
  unfold generate_worker_files, read_file. rewrite Hfile. simpl.
  rewrite Hyaml. simpl. rewrite Hlisteners. simpl.
  rewrite for_each_worker_iteration by done. simpl.
  eexists. split; [reflexivity|].
  assert (∀ w1 : world, dirs (if path_exists (data_dir +:+ "/logs") w1
                               then w1 else mkdir (data_dir +:+ "/logs") w1)
                        = (if bool_decide (is_Some (files w1 !! (data_dir +:+ "/logs")))
                           then dirs w1 else {[data_dir +:+ "/logs"]} ∪ dirs w1)) as Hdirs.
  { intros w1. unfold path_exists.
    destruct (bool_decide (is_Some (files w1 !! _))) eqn:Hf;
      [by rewrite orb_true_r|]. rewrite orb_false_r.
    destruct (bool_decide (_ ∈ dirs w1)) eqn:Hd; simpl; [|done].
    apply bool_decide_eq_true in Hd. apply set_eq. intros x.
    rewrite elem_of_union, elem_of_singleton.
    split; [by right|]. by intros [->|?]. }
  assert (∀ w1 : world, files (if path_exists (data_dir +:+ "/logs") w1
                               then w1 else mkdir (data_dir +:+ "/logs") w1)
                        = files w1
                      ∧ stdout (if path_exists (data_dir +:+ "/logs") w1
                               then w1 else mkdir (data_dir +:+ "/logs") w1)
                        = stdout w1
                      ∧ descriptors (if path_exists (data_dir +:+ "/logs") w1
                               then w1 else mkdir (data_dir +:+ "/logs") w1)
                        = descriptors w1) as Hlog.
  { intros w1. by destruct (path_exists _ w1). }
  split.
  - rewrite (proj1 (Hlog _)). simpl.
    fold_paths.
    rewrite lookup_insert_ne by done. rewrite lookup_insert_ne by done.
    rewrite lookup_insert_eq. by rewrite loop_files_shared.
  - rewrite (proj1 (Hlog _)). simpl.
    fold_paths.
    rewrite lookup_insert_ne by done. rewrite lookup_insert_eq.
    rewrite lookup_insert_ne by done. by rewrite loop_files_nginx.
  - rewrite (proj1 (Hlog _)). simpl.
    fold_paths.
    rewrite lookup_insert_eq.
    rewrite lookup_insert_ne by done. rewrite lookup_insert_ne by done.
    by rewrite loop_files_supervisord.
  - intros path H1 H2 H3. rewrite (proj1 (Hlog _)). simpl.
    fold_paths.
    by rewrite !lookup_insert_ne by done.
  - by rewrite (proj2 (proj2 (Hlog _))).
  - by rewrite (proj1 (proj2 (Hlog _))).
  - rewrite Hdirs, (proj1 (Hlog _)). done.
Qed.

(** Without the template the first known name ends the run. *)
Lemma for_each_worker_iteration_no_template config_path worker_types lo w :
  files w !! template_path = None →
  instances config_path (worker_port lo) worker_types ≠ [] →
  for_each (worker_iteration config_path) worker_types (lo, w)
  = Raise (FileNotFoundError template_path).
Proof.
  revert lo w. induction worker_types as [|t ts IH]; intros lo w Hnone; simpl.
  - done.
  - unfold worker_iteration at 1.
    destruct (dict_get WORKERS_CONFIG (strip t)) as [d|] eqn:Hd; intros Hinsts.
    + unfold convert, read_file. change "/conf/worker.yaml.j2" with template_path.
      by rewrite Hnone.
    + simpl. by apply IH.
Qed.

(** [ready] asks for no more than a successful run needs. *)
Lemma generate_worker_files_ready environ config_path data_dir w w' :
  generate_worker_files environ config_path data_dir w = Ok w' →
  ∃ original_config listeners,
    ready environ config_path w original_config listeners.
Proof.
  unfold generate_worker_files, read_file.
  destruct (files w !! config_path) as [file_stream|] eqn:Hfile; [|done]. simpl.
  destruct (yaml_safe_load file_stream) as [original_config|] eqn:Hyaml; [|done].
  simpl.
  destruct (build_listeners original_config) as [listeners|] eqn:Hl; [|done].
  simpl. intros Hrun. exists original_config, listeners.
  split; [by eauto|done|]. intros Hinsts.
  destruct (files w !! template_path) as [tpl|] eqn:Htpl; [by eauto|].
  rewrite for_each_worker_iteration_no_template in Hrun; done.
Qed.

End Run.

(** ** Lines *)

Lemma contains_char_app c a b :
  contains_char c (a +:+ b) = contains_char c a || contains_char c b.
Proof.
  induction a as [|x a IH]; [done|].
  rewrite app_cons. simpl. by rewrite IH, orb_assoc.
Qed.

Lemma single_line_app a b : single_line a → single_line b → single_line (a +:+ b).
Proof. unfold single_line. rewrite contains_char_app. by intros -> ->. Qed.

Lemma split_cons c x s :
  split c (String x s)
  = if decide (x = c) then "" :: split c s
    else match split c s with
         | w :: ws => String x w :: ws
         | [] => [String x ""]
         end.
Proof. reflexivity. Qed.

Lemma split_nonempty c s : split c s ≠ [].
Proof.
  destruct s as [|x s]; [done|]. rewrite split_cons.
  case_decide; [done|]. by destruct (split c s).
Qed.

Lemma split_app_sep c a b :
  split c (a +:+ String c b) = split c a ++ split c b.
Proof.
  induction a as [|x a IH].
  - change ("" +:+ String c b) with (String c b).
    rewrite split_cons. by case_decide.
  - rewrite app_cons, !split_cons. case_decide; [by rewrite IH|].
    rewrite IH. pose proof (split_nonempty c a). by destruct (split c a).
Qed.

Lemma split_single c s : contains_char c s = false → split c s = [s].
Proof.
  induction s as [|x s IH]; [done|]. rewrite split_cons. simpl.
  intros [Hx Hs]%orb_false_elim. apply bool_decide_eq_false in Hx.
  case_decide; [done|]. by rewrite IH.
Qed.

Lemma lines_unlines ls :
  ls ≠ [] → Forall single_line ls → lines (unlines ls) = ls.
Proof.
  intros Hne Hls. induction Hls as [|l ls Hl Hls IH]; [done|].
  destruct ls as [|l' ls].
  - by apply split_single.
  - change (unlines (l :: l' :: ls))
      with (l +:+ String "010"%char (unlines (l' :: ls))).
    unfold lines in *. rewrite split_app_sep, IH by done.
    by rewrite split_single.
Qed.

Lemma lines_block s block :
  block ≠ [] → Forall single_line block →
  lines (s +:+ (nl +:+ unlines block)) = lines s ++ block.
Proof.
  intros Hne Hblock. change (nl +:+ unlines block)
    with (String "010"%char (unlines block)).
  unfold lines. rewrite split_app_sep. f_equal. by apply lines_unlines.
Qed.

Lemma lines_blocks s blocks :
  Forall (λ block, block ≠ [] ∧ Forall single_line block) blocks →
  lines (s +:+ concat_str ((λ block, nl +:+ unlines block) <$> blocks))
  = lines s ++ concat blocks.
Proof.
  intros Hblocks. revert s.
  induction Hblocks as [|block blocks [Hne Hblock] _ IH]; intros s.
  - unfold concat_str. simpl. by rewrite app_nil_r, (right_id_L [] (++)).
  - change (concat_str ((λ block, nl +:+ unlines block) <$> block :: blocks))
      with ((nl +:+ unlines block)
              +:+ concat_str ((λ block, nl +:+ unlines block) <$> blocks)).
    rewrite <-app_assoc_str, IH, lines_block by done.
    simpl. by rewrite <-app_assoc.
Qed.

(** ** Prefixes and suffixes *)

Lemma strip_prefix_app prefix s : strip_prefix prefix (prefix +:+ s) = Some s.
Proof.
  induction prefix as [|c prefix IH]; [by destruct s|].
  rewrite app_cons. simpl. by case_decide.
Qed.

Lemma length_app_str a b :
  String.length (a +:+ b) = (String.length a + String.length b)%nat.
Proof. induction a as [|c a IH]; [done|]. rewrite app_cons. simpl. by rewrite IH. Qed.

Lemma strip_suffix_unfold suffix s :
  strip_suffix suffix s
  = if decide (s = suffix) then Some ""
    else match s with
         | EmptyString => None
         | String c s' => String c <$> strip_suffix suffix s'
         end.
Proof. by destruct s. Qed.

Lemma strip_suffix_app s suffix : strip_suffix suffix (s +:+ suffix) = Some s.
Proof.
  induction s as [|c s IH]; rewrite strip_suffix_unfold.
  - by case_decide.
  - case_decide as H; [|by rewrite app_cons, IH].
    apply (f_equal String.length) in H. rewrite app_cons in H. simpl in H.
    rewrite length_app_str in H. lia.
Qed.

(** ** Decimal numerals have no line break *)

Lemma single_line_pretty_N_go (x : N) (s : string) :
  single_line s → single_line (pretty_N_go x s).
Proof.
  revert s. induction (N.lt_wf_0 x) as [x _ IH]; intros s Hs.
  destruct (decide (x = 0)%N) as [->|Hx]; [by rewrite pretty_N_go_0|].
  rewrite pretty_N_go_step by lia. apply IH.
  - apply N.div_lt; lia.
  - unfold single_line in *. simpl. rewrite Hs, orb_false_r.
    apply bool_decide_eq_false. unfold pretty_N_char. by repeat case_match.
Qed.

Lemma single_line_pretty_Z (z : Z) : single_line (pretty z).
Proof.
  unfold pretty, pretty_Z.
  assert (∀ n : N, single_line (pretty n)) as HN.
  { intros n. unfold pretty, pretty_N. case_decide; [done|].
    by apply single_line_pretty_N_go. }
  destruct z as [|p|p]; [done|apply (HN (N.pos p))|].
  apply single_line_app; [done|apply (HN (N.pos p))].
Qed.

(** ** The supervisord file, read back *)

Lemma supervisord_base_unlines config_path :
  supervisord_base config_path = unlines (supervisord_base_lines config_path).
Proof.
  unfold supervisord_base, supervisord_base_lines, unlines.
  rewrite !app_assoc_str. reflexivity.
Qed.

Lemma worker_program_unlines wc :
  worker_program wc = nl +:+ unlines (worker_program_lines wc).
Proof.
  unfold worker_program, worker_program_lines, unlines.
  rewrite !app_assoc_str. reflexivity.
Qed.

Lemma single_line_supervisord_base config_path :
  single_line config_path →
  Forall single_line (supervisord_base_lines config_path).
Proof.
  intros Hcp. unfold supervisord_base_lines.
  repeat (apply Forall_cons; split; [try done|]); [|by apply Forall_nil].
  repeat (apply single_line_app; [try done|]). done.
Qed.

(** The names, entry points and patterns of the registry are single lines. *)
Lemma registry_single_line name d :
  dict_get WORKERS_CONFIG name = Some d →
  single_line name ∧ single_line (app d)
  ∧ Forall single_line (endpoint_patterns d).
Proof.
  intros H%dict_get_registered. unfold WORKERS_CONFIG in H.
  repeat (apply elem_of_cons in H as [[= -> ->]|H];
          [split_and!; [done|done|by repeat constructor]|]).
  by apply elem_of_nil in H.
Qed.

Lemma single_line_worker_program config_path port worker_types wc :
  single_line config_path →
  wc ∈ instances config_path port worker_types →
  Forall single_line (worker_program_lines wc).
Proof.
  intros Hcp (d & Hd & ->)%instances_registered.
  apply registry_single_line in Hd as (Hname & Happ & _).
  unfold worker_program_lines. simpl.
  repeat (apply Forall_cons; split; [try done|]); [| |by apply Forall_nil].
  - repeat (apply single_line_app; [try done|]). done.
  - repeat (apply single_line_app; [try done|]). done.
Qed.

Lemma lines_emitted_supervisord config_path port worker_types :
  single_line config_path →
  lines (emitted_supervisord config_path
           (instances config_path port worker_types))
  = supervisord_base_lines config_path
      ++ concat (worker_program_lines <$> instances config_path port worker_types).
Proof.
  intros Hcp. unfold emitted_supervisord.
  rewrite supervisord_base_unlines.
  replace (worker_program <$> instances config_path port worker_types)
    with ((λ block, nl +:+ unlines block)
            <$> (worker_program_lines
                   <$> instances config_path port worker_types)).
  2:{ rewrite <-list_fmap_compose. apply list_fmap_ext.
      intros _ wc _. simpl. by rewrite worker_program_unlines. }
  rewrite lines_blocks.
  - by rewrite lines_unlines by (done || by apply single_line_supervisord_base).
  - apply Forall_fmap, Forall_forall. intros wc Hwc. simpl. split; [done|].
    by eapply single_line_worker_program.
Qed.

Lemma section_header_brackets name :
  section_header ("[" +:+ name +:+ "]") = Some name.
Proof.
  unfold section_header. change ("[" +:+ name +:+ "]") with ("[" +:+ (name +:+ "]")).
  rewrite strip_prefix_app. simpl. apply strip_suffix_app.
Qed.

Lemma ini_read_workers insts :
  ini_read (concat (worker_program_lines <$> insts))
  = ([], worker_section <$> insts).
Proof.
  unfold ini_read. induction insts as [|wc insts IH]; [done|].
  change (concat (worker_program_lines <$> wc :: insts))
    with (worker_program_lines wc ++ concat (worker_program_lines <$> insts)).
  rewrite foldr_app, IH.
  unfold worker_section at 2.
  change (worker_program_lines wc)
    with (("[" +:+ ("program:synapse_" +:+ wc_name wc) +:+ "]")
            :: tail (worker_program_lines wc)).
  change (foldr ini_step ([], worker_section <$> insts) (?l :: ?ls))
    with (ini_step l (foldr ini_step ([], worker_section <$> insts) ls)).
  unfold ini_step at 1. rewrite section_header_brackets. simpl.
  f_equal.
Qed.

Lemma program_of_worker_section wc :
  program_of (worker_section wc) = Some (worker_entry wc).
Proof.
  unfold program_of, worker_section. simpl fst.
  change ("program:synapse_" +:+ wc_name wc)
    with ("program:" +:+ ("synapse_" +:+ wc_name wc)).
  rewrite strip_prefix_app. reflexivity.
Qed.

Lemma programs_base config_path sections :
  omap program_of
    (foldr ini_step ([], sections) (supervisord_base_lines config_path)).2
  = nginx_program :: main_program :: omap program_of sections.
Proof. reflexivity. Qed.

(** What supervisord reads in the text of a run: nginx, the main process,
    and one program per instance, in this order. *)
Lemma programs_emitted config_path port worker_types :
  single_line config_path →
  programs (emitted_supervisord config_path
              (instances config_path port worker_types))
  = nginx_program :: main_program
      :: (worker_entry <$> instances config_path port worker_types).
Proof.
  intros Hcp. unfold programs, ini_sections.
  rewrite lines_emitted_supervisord by done.
  unfold ini_read. rewrite foldr_app.
  change (foldr ini_step ([], []) ?ls) with (ini_read ls).
  rewrite ini_read_workers, programs_base. do 2 f_equal.
  induction (instances config_path port worker_types) as [|wc insts IH]; [done|].
  rewrite !fmap_cons. cbn [omap list_omap].
  by rewrite program_of_worker_section, IH.
Qed.

(** ** The nginx site, read back *)

Lemma nginx_location_unlines pattern port :
  nginx_location pattern port
  = nl +:+ unlines (nginx_location_lines pattern port).
Proof.
  unfold nginx_location, nginx_location_lines, unlines.
  rewrite !app_assoc_str. reflexivity.
Qed.

Lemma nginx_end_unlines :
  nginx_config_template_end = nl +:+ unlines nginx_end_lines.
Proof. reflexivity. Qed.

(** The line blocks of the rules of a list of instances. *)
Lemma worker_locations_blocks insts :
  concat_str (worker_locations <$> insts)
  = concat_str
      ((λ block, nl +:+ unlines block)
         <$> (insts ≫= λ wc,
                (λ pattern, nginx_location_lines pattern (wc_port wc))
                  <$> wc_endpoint_patterns wc)).
Proof.
  induction insts as [|wc insts IH]; [done|].
  rewrite fmap_cons, bind_cons, fmap_app, concat_str_app, <-IH.
  change (concat_str (worker_locations wc :: (worker_locations <$> insts)))
    with (worker_locations wc +:+ concat_str (worker_locations <$> insts)).
  f_equal. unfold worker_locations. f_equal.
  rewrite <-list_fmap_compose. apply list_fmap_ext.
  intros _ pattern _. simpl. apply nginx_location_unlines.
Qed.

Lemma single_line_nginx_location pattern port :
  single_line pattern → Forall single_line (nginx_location_lines pattern port).
Proof.
  intros Hp. unfold nginx_location_lines.
  repeat (apply Forall_cons; split; [try done|]); [| |by apply Forall_nil].
  - repeat (apply single_line_app; [try done|]). done.
  - repeat (apply single_line_app; [try done|]); [|done].
    apply single_line_pretty_Z.
Qed.

Lemma lines_emitted_nginx config_path port worker_types :
  lines (emitted_nginx (instances config_path port worker_types))
  = lines nginx_config_template_header
      ++ concat (instances config_path port worker_types ≫= λ wc,
                   (λ pattern, nginx_location_lines pattern (wc_port wc))
                     <$> wc_endpoint_patterns wc)
      ++ nginx_end_lines.
Proof.
  unfold emitted_nginx.
  rewrite worker_locations_blocks, nginx_end_unlines.
  set (blocks := instances config_path port worker_types ≫= _).
  replace (concat_str ((λ block, nl +:+ unlines block) <$> blocks)
             +:+ (nl +:+ unlines nginx_end_lines))
    with (concat_str ((λ block, nl +:+ unlines block)
                        <$> (blocks ++ [nginx_end_lines]))).
  2:{ rewrite fmap_app, concat_str_app. by f_equal. }
  rewrite lines_blocks.
  - by rewrite concat_app.
  - apply Forall_app. split.
    + apply Forall_forall. intros block Hblock. split.
      * subst blocks. apply list_elem_of_bind in Hblock as (wc & Hb & _).
        apply list_elem_of_fmap in Hb as (pattern & -> & _). done.
      * subst blocks. apply list_elem_of_bind in Hblock as (wc & Hb & Hwc).
        apply list_elem_of_fmap in Hb as (pattern & -> & Hp).
        apply single_line_nginx_location.
        apply instances_registered in Hwc as (d & Hd & Heq).
        apply registry_single_line in Hd as (_ & _ & Hpatterns).
        rewrite Heq in Hp. simpl in Hp. rewrite Forall_forall in Hpatterns. by apply Hpatterns.
    + apply Forall_singleton. split; [done|]. by repeat constructor.
Qed.

Lemma nginx_read_skip l ls :
  location_line l = None → nginx_read (l :: ls) = nginx_read ls.
Proof. intros H. cbn [nginx_read]. by rewrite H. Qed.

Lemma nginx_read_rule l l' ls pattern target :
  location_line l = Some pattern → proxy_pass_line l' = Some target →
  nginx_read (l :: l' :: ls) = (pattern, target) :: nginx_read (l' :: ls).
Proof. intros H H'. cbn [nginx_read]. by rewrite H, H'. Qed.

Lemma nginx_read_skip_all pre ls :
  Forall (λ l, location_line l = None) pre →
  nginx_read (pre ++ ls) = nginx_read ls.
Proof.
  induction 1 as [|l pre Hl _ IH]; [done|].
  change ((l :: pre) ++ ls) with (l :: (pre ++ ls)). by rewrite nginx_read_skip.
Qed.

Lemma location_line_location pattern :
  location_line ("    location ~* " +:+ pattern +:+ " {") = Some pattern.
Proof.
  unfold location_line.
  change (lstrip ("    location ~* " +:+ pattern +:+ " {"))
    with ("location ~* " +:+ (pattern +:+ " {")).
  rewrite strip_prefix_app. simpl. apply strip_suffix_app.
Qed.

Lemma proxy_pass_line_proxy_pass target :
  proxy_pass_line ("        proxy_pass " +:+ target +:+ ";") = Some target.
Proof.
  unfold proxy_pass_line.
  change (lstrip ("        proxy_pass " +:+ target +:+ ";"))
    with ("proxy_pass " +:+ (target +:+ ";")).
  rewrite strip_prefix_app. simpl. apply strip_suffix_app.
Qed.

Lemma nginx_read_location pattern port ls :
  nginx_read (nginx_location_lines pattern port ++ ls)
  = (pattern, "http://localhost:" +:+ pretty port) :: nginx_read ls.
Proof.
  unfold nginx_location_lines.
  rewrite <-!app_comm_cons.
  rewrite (nginx_read_rule _ _ _ _ _ (location_line_location pattern)
             (proxy_pass_line_proxy_pass _)).
  reflexivity.
Qed.

Lemma header_no_location :
  Forall (λ l, location_line l = None) (lines nginx_config_template_header).
Proof. apply (bool_decide_unpack _). by vm_compute. Qed.

(** What nginx reads in the text of a run: the rules of the instances in
    request order, each worker's patterns in registry order, then the rule
    of the main process. *)
Lemma nginx_rules_emitted config_path port worker_types :
  nginx_rules (emitted_nginx (instances config_path port worker_types))
  = (instances config_path port worker_types ≫= worker_rules) ++ [catch_all].
Proof.
  unfold nginx_rules. rewrite lines_emitted_nginx.
  rewrite nginx_read_skip_all by apply header_no_location.
  induction (instances config_path port worker_types) as [|wc insts IH].
  - reflexivity.
  - rewrite !bind_cons, concat_app.
    rewrite <-(assoc_L (++) _ _ nginx_end_lines), <-(assoc_L (++) _ _ [catch_all]).
    rewrite <-IH. clear IH. unfold worker_rules at 1.
    induction (wc_endpoint_patterns wc) as [|pattern patterns IH]; [done|].
    rewrite !fmap_cons.
    change (concat (?b :: ?bs)) with (b ++ concat bs).
    rewrite <-(assoc_L (++)), nginx_read_location.
    rewrite <-app_comm_cons. f_equal. apply IH.
Qed.

(** ** Readiness of the example world *)

Lemma example_ready environ :
  ready (E := example_externals) environ "/data/homeserver.yaml" example_world
    (YMap [("listeners", YList [YStr "main"])])
    [replication_listener; YStr "main"].
Proof.
  split.
  - exists "listeners: [main]". by vm_compute.
  - by vm_compute.
  - intros _. exists "worker ". by vm_compute.
Qed.

(** ** Port allocation *)

(** C1: the descriptors a run adds are those of the known names of the
    request, in request order, and their ports are 18009, 18010, ... without
    gap or repetition; the nginx rules are built from the same instances.
    Unknown names appear in neither list. *)
Theorem ports_contiguous `{E : Externals} environ config_path data_dir w
    original_config listeners :
  ready environ config_path w original_config listeners →
  ∃ w' insts,
    generate_worker_files environ config_path data_dir w = Ok w'
    ∧ descriptors w'
      = descriptors w ++ ((λ wc, (descriptor_path (wc_name wc), wc)) <$> insts)
    ∧ wc_name <$> insts = valid_names (read_worker_types environ)
    ∧ wc_port <$> insts = seqZ 18009 (Z.of_nat (length insts))
    ∧ NoDup (wc_port <$> insts)
    ∧ (∀ (i : nat) wc, insts !! i = Some wc → wc_port wc = 18009 + Z.of_nat i)
    ∧ files w' !! nginx_path
      = Some (content nginx_path w
                +:+ nginx_config_template_header
                +:+ concat_str (worker_locations <$> insts)
                +:+ nginx_config_template_end).
Proof.
  intros Hready.
  destruct (generate_worker_files_ok _ _ data_dir _ _ _ Hready) as (w' & Hrun & Hout).
  exists w', (instances config_path 18009 (read_worker_types environ)).
  assert (wc_port <$> instances config_path 18009 (read_worker_types environ)
          = seqZ 18009 (Z.of_nat (length
              (instances config_path 18009 (read_worker_types environ))))) as Hports.
  { rewrite instances_ports. by rewrite <-(instances_names config_path 18009),
      length_fmap. }
  split_and!.
  - done.
  - apply Hout.
  - apply instances_names.
  - done.
  - rewrite Hports. apply NoDup_seqZ.
  - intros i wc Hi.
    assert ((wc_port <$> instances config_path 18009 (read_worker_types environ))
              !! i = Some (wc_port wc)) as Hp by (by rewrite list_lookup_fmap, Hi).
    rewrite Hports in Hp. by apply lookup_seqZ in Hp as [-> _].
  - apply Hout.
Qed.

Lemma ports_contiguous_witness :
  ∃ w' insts,
    generate_worker_files (E := example_externals)
      {[ "SYNAPSE_WORKERS" := "federation_reader,nope, user_dir" ]}
      "/data/homeserver.yaml" "/data" example_world = Ok w'
    ∧ descriptors w'
      = descriptors example_world
          ++ ((λ wc, (descriptor_path (wc_name wc), wc)) <$> insts)
    ∧ wc_name <$> insts
      = valid_names (read_worker_types
          {[ "SYNAPSE_WORKERS" := "federation_reader,nope, user_dir" ]})
    ∧ wc_port <$> insts = seqZ 18009 (Z.of_nat (length insts))
    ∧ NoDup (wc_port <$> insts)
    ∧ (∀ (i : nat) wc, insts !! i = Some wc → wc_port wc = 18009 + Z.of_nat i)
    ∧ files w' !! nginx_path
      = Some (content nginx_path example_world
                +:+ nginx_config_template_header
                +:+ concat_str (worker_locations <$> insts)
                +:+ nginx_config_template_end).
Proof.
  exact (ports_contiguous (E := example_externals)
           {[ "SYNAPSE_WORKERS" := "federation_reader,nope, user_dir" ]}
           "/data/homeserver.yaml" "/data" example_world _ _
           (example_ready _)).
Defined.

(** ** The listeners of the shared patch *)

Lemma build_listeners_declared original_config existing :
  declared_listeners original_config = Some existing →
  build_listeners original_config = Ok (replication_listener :: existing).
Proof.
  unfold declared_listeners, build_listeners, yaml_get.
  destruct original_config as [| | | | |m]; try done.
  destruct (dict_get m "listeners") as [[| | | |l|]|]; try done; simpl.
  - by intros [= <-].
  - intros [= <-]. by destruct l.
  - by intros [= <-].
Qed.

(** C3: whatever the base config, as long as its listeners are a list (or
    are missing), the listener list dumped at the head of the shared patch
    is the replication listener followed by the declared listeners in their
    order; the replication listener is an http listener on 127.0.0.1:9093
    with the resource "replication", and no worker is given port 9093. *)
Theorem replication_listener_first `{E : Externals} environ config_path data_dir
    w original_config listeners existing :
  ready environ config_path w original_config listeners →
  declared_listeners original_config = Some existing →
  listeners = replication_listener :: existing
  ∧ yaml_get replication_listener "bind_address" = Ok (YStr "127.0.0.1")
  ∧ yaml_get replication_listener "port" = Ok (YInt 9093)
  ∧ yaml_get replication_listener "type" = Ok (YStr "http")
  ∧ yaml_get replication_listener "resources"
    = Ok (YList [YMap [("names", YList [YStr "replication"])]])
  ∧ ∃ w' rest,
      generate_worker_files environ config_path data_dir w = Ok w'
      ∧ files w' !! shared_path
        = Some (content shared_path w
                  +:+ nl
                  +:+ yaml_dump
                        (YMap [("listeners",
                                YList (replication_listener :: existing))])
                  +:+ rest)
      ∧ ∀ path wc, (path, wc) ∈ drop (length (descriptors w)) (descriptors w')
                   → wc_port wc ≠ 9093.
Proof.
  intros Hready Hdecl.
  assert (listeners = replication_listener :: existing) as ->.
  { apply build_listeners_declared in Hdecl.
    destruct Hready as [_ Hl _]. congruence. }
  split_and!; try done.
  destruct (generate_worker_files_ok _ _ data_dir _ _ _ Hready) as (w' & Hrun & Hout).
  exists w'. eexists. split_and!; [done| |].
  - rewrite (out_shared _ _ _ _ _ _ Hout). unfold emitted_shared.
    rewrite !app_assoc_str. reflexivity.
  - intros path wc. rewrite (out_descriptors _ _ _ _ _ _ Hout), drop_app_length.
    intros (wc' & [= -> ->] & Hin)%list_elem_of_fmap.
    apply (list_elem_of_fmap_2 wc_port) in Hin.
    rewrite instances_ports in Hin. apply elem_of_seqZ in Hin. lia.
Qed.

Lemma replication_listener_first_witness :
  [replication_listener; YStr "main"] = replication_listener :: [YStr "main"]
  ∧ yaml_get replication_listener "bind_address" = Ok (YStr "127.0.0.1")
  ∧ yaml_get replication_listener "port" = Ok (YInt 9093)
  ∧ yaml_get replication_listener "type" = Ok (YStr "http")
  ∧ yaml_get replication_listener "resources"
    = Ok (YList [YMap [("names", YList [YStr "replication"])]])
  ∧ ∃ w' rest,
      generate_worker_files (E := example_externals)
        {[ "SYNAPSE_WORKERS" := "pusher" ]} "/data/homeserver.yaml" "/data"
        example_world = Ok w'
      ∧ files w' !! shared_path
        = Some (content shared_path example_world
                  +:+ nl
                  +:+ yaml_dump (Externals := example_externals)
                        (YMap [("listeners",
                                YList (replication_listener :: [YStr "main"]))])
                  +:+ rest)
      ∧ ∀ path wc,
          (path, wc) ∈ drop (length (descriptors example_world)) (descriptors w')
          → wc_port wc ≠ 9093.
Proof.
  exact (replication_listener_first (E := example_externals)
           {[ "SYNAPSE_WORKERS" := "pusher" ]} "/data/homeserver.yaml" "/data"
           example_world _ _ [YStr "main"] (example_ready _) eq_refl).
Defined.

(** ** Unknown names *)

Lemma instances_skip config_path port before bad after :
  dict_get WORKERS_CONFIG (strip bad) = None →
  instances config_path port (before ++ bad :: after)
  = instances config_path port (before ++ after).
Proof.
  intros Hbad. revert port.
  induction before as [|t ts IH]; intros port; simpl.
  - by rewrite Hbad.
  - destruct (dict_get WORKERS_CONFIG (strip t)); by rewrite IH.
Qed.

Lemma loop_prints_complaint `{E : Externals} config_path template port before bad
    after :
  dict_get WORKERS_CONFIG (strip bad) = None →
  complaint bad ∈ loop_prints config_path template port (before ++ bad :: after).
Proof.
  intros Hbad. revert port.
  induction before as [|t ts IH]; intros port; simpl.
  - rewrite Hbad. by left.
  - destruct (dict_get WORKERS_CONFIG (strip t)); right; apply IH.
Qed.

(** Two runs from the same world whose requests have the same instances
    leave the same artifacts. *)
Lemma outcome_same_artifacts `{E : Externals} environ1 environ2 config_path
    data_dir listeners w w1 w2 :
  instances config_path 18009 (read_worker_types environ1)
  = instances config_path 18009 (read_worker_types environ2) →
  outcome environ1 config_path data_dir listeners w w1 →
  outcome environ2 config_path data_dir listeners w w2 →
  same_artifacts w1 w2.
Proof.
  intros Hinsts H1 H2.
  assert (files w1 = files w2) as Hfiles.
  { apply map_eq. intros path.
    destruct (decide (path = shared_path)) as [->|?].
    { by rewrite (out_shared _ _ _ _ _ _ H1), (out_shared _ _ _ _ _ _ H2), Hinsts. }
    destruct (decide (path = nginx_path)) as [->|?].
    { by rewrite (out_nginx _ _ _ _ _ _ H1), (out_nginx _ _ _ _ _ _ H2), Hinsts. }
    destruct (decide (path = supervisord_path)) as [->|?].
    { by rewrite (out_supervisord _ _ _ _ _ _ H1),
        (out_supervisord _ _ _ _ _ _ H2), Hinsts. }
    by rewrite (out_other _ _ _ _ _ _ H1), (out_other _ _ _ _ _ _ H2), Hinsts. }
  split_and!.
  - done.
  - by rewrite (out_dirs _ _ _ _ _ _ H1), (out_dirs _ _ _ _ _ _ H2), Hfiles.
  - by rewrite (out_descriptors _ _ _ _ _ _ H1), (out_descriptors _ _ _ _ _ _ H2),
      Hinsts.
Qed.

(** C6: a request with a name the registry does not know, against the
    request without it.  When the latter goes through so does the former;
    the name is logged; files, directories and descriptors are the same in
    both, so the name adds no program, no rule, no shared fragment and no
    descriptor, and the other names are treated as without it. *)
Theorem unknown_name_isolated `{E : Externals} environ environ' config_path
    data_dir w original_config listeners before bad after :
  read_worker_types environ = before ++ bad :: after →
  read_worker_types environ' = before ++ after →
  dict_get WORKERS_CONFIG (strip bad) = None →
  ready environ' config_path w original_config listeners →
  ∃ w1 w2,
    generate_worker_files environ config_path data_dir w = Ok w1
    ∧ generate_worker_files environ' config_path data_dir w = Ok w2
    ∧ same_artifacts w1 w2
    ∧ complaint bad ∈ drop (length (stdout w)) (stdout w1)
    ∧ ∀ path wc, (path, wc) ∈ drop (length (descriptors w)) (descriptors w1)
                 → wc_name wc ≠ strip bad.
Proof.
  intros Henv Henv' Hbad Hready'.
  assert (instances config_path 18009 (read_worker_types environ)
          = instances config_path 18009 (read_worker_types environ')) as Hinsts.
  { rewrite Henv, Henv'. by apply instances_skip. }
  assert (ready environ config_path w original_config listeners) as Hready.
  { destruct Hready' as [? ? Ht]. split; [done..|]. by rewrite Hinsts. }
  destruct (generate_worker_files_ok _ _ data_dir _ _ _ Hready) as (w1 & Hrun1 & H1).
  destruct (generate_worker_files_ok _ _ data_dir _ _ _ Hready')
    as (w2 & Hrun2 & H2).
  exists w1, w2. split_and!; [done|done| | |].
  - by eapply outcome_same_artifacts.
  - rewrite (out_stdout _ _ _ _ _ _ H1), drop_app_length, Henv.
    by apply loop_prints_complaint.
  - intros path wc. rewrite (out_descriptors _ _ _ _ _ _ H1), drop_app_length.
    intros (wc' & [= -> ->] & Hin)%list_elem_of_fmap.
    apply instances_registered in Hin as (d & Hd & _). congruence.
Qed.

Lemma unknown_name_isolated_witness :
  ∃ w1 w2,
    generate_worker_files (E := example_externals)
      {[ "SYNAPSE_WORKERS" := "pusher,foo,user_dir" ]}
      "/data/homeserver.yaml" "/data" example_world = Ok w1
    ∧ generate_worker_files (E := example_externals)
        {[ "SYNAPSE_WORKERS" := "pusher,user_dir" ]}
        "/data/homeserver.yaml" "/data" example_world = Ok w2
    ∧ same_artifacts w1 w2
    ∧ complaint "foo" ∈ drop (length (stdout example_world)) (stdout w1)
    ∧ ∀ path wc,
        (path, wc) ∈ drop (length (descriptors example_world)) (descriptors w1)
        → wc_name wc ≠ strip "foo".
Proof.
  exact (unknown_name_isolated (E := example_externals)
           {[ "SYNAPSE_WORKERS" := "pusher,foo,user_dir" ]}
           {[ "SYNAPSE_WORKERS" := "pusher,user_dir" ]}
           "/data/homeserver.yaml" "/data" example_world _ _
           ["pusher"] "foo" ["user_dir"]
           eq_refl eq_refl eq_refl (example_ready _)).
Defined.

(** ** The wildcard *)

(** C7: ['*'] and the comma-separated list of every registry key, in the
    order of the registry, give the same run: same result, same world. *)
Theorem wildcard_is_every_name `{E : Externals} environ config_path data_dir w :
  join_commas (dict_keys WORKERS_CONFIG)
  = "pusher,user_dir,media_repository,appservice,federation_sender,synchrotron,federation_reader,federation_inbound"
  ∧ generate_worker_files (<["SYNAPSE_WORKERS" := "*"]> environ)
      config_path data_dir w
    = generate_worker_files
        (<["SYNAPSE_WORKERS" := join_commas (dict_keys WORKERS_CONFIG)]> environ)
        config_path data_dir w.
Proof.
  split; [by vm_compute|].
  unfold generate_worker_files.
  assert (read_worker_types (<["SYNAPSE_WORKERS" := "*"]> environ)
          = read_worker_types
              (<["SYNAPSE_WORKERS" := join_commas (dict_keys WORKERS_CONFIG)]>
                 environ)) as ->; [|done].
  unfold read_worker_types. rewrite !lookup_insert_eq.
  by vm_compute.
Qed.

(** ** The empty request *)

(** C10: with [SYNAPSE_WORKERS] set to the empty string the request is the
    one-name list [[""]], not the empty list of the unset variable.  The
    run goes through exactly when the run of the unset variable does, and
    raises what that one raises.  It prints one line, the complaint about
    the empty name, where the run of the unset variable prints none; the
    files, the directories and the descriptors of the two runs are the
    same. *)
Theorem empty_request_is_one_unknown_name `{E : Externals} environ config_path
    data_dir w :
  read_worker_types (<["SYNAPSE_WORKERS" := ""]> environ) = [""]
  ∧ read_worker_types (delete "SYNAPSE_WORKERS" environ) = []
  ∧ generate_worker_files (<["SYNAPSE_WORKERS" := ""]> environ)
      config_path data_dir w
    = log " is a wrong worker type ! It will be ignored"
        <$> generate_worker_files (delete "SYNAPSE_WORKERS" environ)
              config_path data_dir w
  ∧ stdout <$> generate_worker_files (<["SYNAPSE_WORKERS" := ""]> environ)
                 config_path data_dir w
    = (λ _, stdout w ++ [" is a wrong worker type ! It will be ignored"])
        <$> generate_worker_files (delete "SYNAPSE_WORKERS" environ)
              config_path data_dir w
  ∧ stdout <$> generate_worker_files (delete "SYNAPSE_WORKERS" environ)
                 config_path data_dir w
    = (λ _, stdout w)
        <$> generate_worker_files (delete "SYNAPSE_WORKERS" environ)
              config_path data_dir w
  ∧ files <$> generate_worker_files (<["SYNAPSE_WORKERS" := ""]> environ)
                config_path data_dir w
    = files <$> generate_worker_files (delete "SYNAPSE_WORKERS" environ)
                  config_path data_dir w
  ∧ dirs <$> generate_worker_files (<["SYNAPSE_WORKERS" := ""]> environ)
               config_path data_dir w
    = dirs <$> generate_worker_files (delete "SYNAPSE_WORKERS" environ)
                 config_path data_dir w
  ∧ descriptors <$> generate_worker_files (<["SYNAPSE_WORKERS" := ""]> environ)
                      config_path data_dir w
    = descriptors <$> generate_worker_files (delete "SYNAPSE_WORKERS" environ)
                        config_path data_dir w.
Proof.
  assert (read_worker_types (<["SYNAPSE_WORKERS" := ""]> environ) = [""]) as H1.
  { unfold read_worker_types. by rewrite lookup_insert_eq. }
  assert (read_worker_types (delete "SYNAPSE_WORKERS" environ) = []) as H2.
  { unfold read_worker_types. by rewrite lookup_delete_eq. }
  split_and!; [done..| | | | | |].
  all: unfold generate_worker_files; rewrite ?H1, ?H2.
  all: destruct (read_file config_path w) as [file_stream|]; [simpl|done].
  all: destruct (yaml_safe_load file_stream) as [original_config|]; [simpl|done].
  all: destruct (build_listeners original_config) as [listeners|]; [simpl|done].
  all: unfold path_exists; simpl.
  all: by destruct (_ || _).
Qed.

(** ** Running twice *)

(** A descriptor the loop writes does not depend on what the path held. *)
Lemma loop_files_written `{E : Externals} template insts fs fs' path :
  path ∈ (λ wc, descriptor_path (wc_name wc)) <$> insts →
  loop_files template insts fs !! path = loop_files template insts fs' !! path
  ∧ is_Some (loop_files template insts fs !! path).
Proof.
  unfold loop_files. induction insts as [|wc insts IH] using rev_ind.
  - by intros ?%elem_of_nil.
  - rewrite fmap_app, !foldl_app. simpl.
    destruct (decide (descriptor_path (wc_name wc) = path)) as [<-|Hne].
    + intros _. rewrite !lookup_insert_eq. eauto.
    + rewrite !lookup_insert_ne by done.
      intros [Hin|Hin]%elem_of_app; [by apply IH|].
      by apply list_elem_of_singleton in Hin.
Qed.

(** C5, as the code has it: when the base config is not one of the files a
    run writes, a second run with the same input goes through whenever the
    first did; it emits the
    same three texts and the same descriptors.  The descriptor files are
    overwritten, so they hold after the second run what they held after
    the first.  The nginx site, the supervisord file and the shared patch
    are opened for appending: after the second run each holds what was
    there before the first run, followed by two copies of the text. *)
Theorem rerun_overwrites_descriptors_appends_rest `{E : Externals} environ
    config_path data_dir w original_config listeners :
  ready environ config_path w original_config listeners →
  config_path ∉ output_paths environ →
  ∃ w1 w2 shared nginx supervisord,
    generate_worker_files environ config_path data_dir w = Ok w1
    ∧ generate_worker_files environ config_path data_dir w1 = Ok w2
    ∧ (∀ name, name ∈ valid_names (read_worker_types environ) →
         is_Some (files w1 !! descriptor_path name)
         ∧ files w2 !! descriptor_path name = files w1 !! descriptor_path name)
    ∧ drop (length (descriptors w1)) (descriptors w2)
      = drop (length (descriptors w)) (descriptors w1)
    ∧ files w1 !! nginx_path = Some (content nginx_path w +:+ nginx)
    ∧ files w2 !! nginx_path = Some ((content nginx_path w +:+ nginx) +:+ nginx)
    ∧ files w1 !! supervisord_path
      = Some (content supervisord_path w +:+ supervisord)
    ∧ files w2 !! supervisord_path
      = Some ((content supervisord_path w +:+ supervisord) +:+ supervisord)
    ∧ files w1 !! shared_path = Some (content shared_path w +:+ shared)
    ∧ files w2 !! shared_path
      = Some ((content shared_path w +:+ shared) +:+ shared).
Proof.
  intros Hready Hout.
  destruct (generate_worker_files_ok _ _ data_dir _ _ _ Hready) as (w1 & Hrun1 & H1).
  assert (files w1 !! config_path = files w !! config_path) as Hconfig.
  { unfold output_paths in Hout. rewrite !not_elem_of_cons in Hout.
    destruct Hout as (? & ? & ? & Hout).
    rewrite (out_other _ _ _ _ _ _ H1) by done.
    apply loop_files_lookup_other. intros wc Hwc Heq. apply Hout.
    rewrite <-Heq. apply list_elem_of_fmap_2.
    rewrite <-(instances_names config_path 18009).
    by apply list_elem_of_fmap_2. }
  set (insts := instances config_path 18009 (read_worker_types environ)) in *.
  assert (files w1 !! template_path = files w !! template_path) as Htpl.
  { rewrite (out_other _ _ _ _ _ _ H1) by done.
    apply loop_files_lookup_other. intros. apply descriptor_not_template. }
  assert (ready environ config_path w1 original_config listeners) as Hready1.
  { destruct Hready as [Hc Hl Ht]. split; [by rewrite Hconfig|done|].
    by rewrite Htpl. }
  destruct (generate_worker_files_ok _ _ data_dir _ _ _ Hready1)
    as (w2 & Hrun2 & H2).
  assert (content template_path w1 = content template_path w) as Hcontent
    by (unfold content; by rewrite Htpl).
  exists w1, w2, (emitted_shared listeners insts), (emitted_nginx insts),
    (emitted_supervisord config_path insts).
  split_and!; try done; try apply H1.
  - intros name Hname.
    assert (descriptor_path name ∈ (λ wc, descriptor_path (wc_name wc)) <$> insts)
      as Hin.
    { rewrite <-(instances_names config_path 18009) in Hname.
      apply list_elem_of_fmap in Hname as (wc & -> & Hwc).
      by apply (list_elem_of_fmap_2 (λ wc, descriptor_path (wc_name wc))). }
    assert (descriptor_path name ≠ shared_path) as Hshared.
    { apply list_elem_of_fmap in Hin as (wc & -> & Hwc).
      apply instances_registered in Hwc as (d & Hd & _).
      by eapply descriptor_not_shared. }
    rewrite (out_other _ _ _ _ _ _ H1), (out_other _ _ _ _ _ _ H2), Hcontent
      by auto using descriptor_not_nginx, descriptor_not_supervisord.
    split; [by eapply loop_files_written|].
    by eapply loop_files_written.
  - rewrite (out_descriptors _ _ _ _ _ _ H2), drop_app_length.
    by rewrite (out_descriptors _ _ _ _ _ _ H1), drop_app_length.
  - rewrite (out_nginx _ _ _ _ _ _ H2). unfold content at 1.
    by rewrite (out_nginx _ _ _ _ _ _ H1).
  - rewrite (out_supervisord _ _ _ _ _ _ H2). unfold content at 1.
    by rewrite (out_supervisord _ _ _ _ _ _ H1).
  - rewrite (out_shared _ _ _ _ _ _ H2). unfold content at 1.
    by rewrite (out_shared _ _ _ _ _ _ H1).
Qed.

(** The claim as the spec words it fails: after a second run of the empty
    request the nginx site and the supervisord file are not what they were
    after the first. *)
Lemma rerun_overwrites_descriptors_appends_rest_witness :
  ∃ w1 w2 shared nginx supervisord,
    generate_worker_files (E := example_externals)
      {[ "SYNAPSE_WORKERS" := "pusher" ]} "/data/homeserver.yaml" "/data"
      example_world = Ok w1
    ∧ generate_worker_files (E := example_externals)
        {[ "SYNAPSE_WORKERS" := "pusher" ]} "/data/homeserver.yaml" "/data"
        w1 = Ok w2
    ∧ (∀ name,
         name ∈ valid_names
                  (read_worker_types {[ "SYNAPSE_WORKERS" := "pusher" ]}) →
         is_Some (files w1 !! descriptor_path name)
         ∧ files w2 !! descriptor_path name = files w1 !! descriptor_path name)
    ∧ drop (length (descriptors w1)) (descriptors w2)
      = drop (length (descriptors example_world)) (descriptors w1)
    ∧ files w1 !! nginx_path = Some (content nginx_path example_world +:+ nginx)
    ∧ files w2 !! nginx_path
      = Some ((content nginx_path example_world +:+ nginx) +:+ nginx)
    ∧ files w1 !! supervisord_path
      = Some (content supervisord_path example_world +:+ supervisord)
    ∧ files w2 !! supervisord_path
      = Some ((content supervisord_path example_world +:+ supervisord)
                +:+ supervisord)
    ∧ files w1 !! shared_path = Some (content shared_path example_world +:+ shared)
    ∧ files w2 !! shared_path
      = Some ((content shared_path example_world +:+ shared) +:+ shared).
Proof.
  apply (rerun_overwrites_descriptors_appends_rest (E := example_externals)
           {[ "SYNAPSE_WORKERS" := "pusher" ]} "/data/homeserver.yaml" "/data"
           example_world _ _ (example_ready _)).
  apply (bool_decide_unpack _). by vm_compute.
Defined.

Lemma rerun_not_byte_identical :
  ∃ w1 w2,
    generate_worker_files (E := example_externals) ∅ "/data/homeserver.yaml"
      "/data" example_world = Ok w1
    ∧ generate_worker_files (E := example_externals) ∅ "/data/homeserver.yaml"
        "/data" w1 = Ok w2
    ∧ files w2 !! nginx_path ≠ files w1 !! nginx_path
    ∧ files w2 !! supervisord_path ≠ files w1 !! supervisord_path.
Proof.
  eexists _, _. split_and!.
  - vm_compute. reflexivity.
  - vm_compute. reflexivity.
  - vm_compute. discriminate.
  - vm_compute. discriminate.
Qed.

(** ** The routing table *)

Lemma catch_all_not_worker_rule config_path worker_types :
  catch_all ∉ (instances config_path 18009 worker_types ≫= worker_rules).
Proof.
  intros (wc & Hrule & Hwc)%list_elem_of_bind.
  apply list_elem_of_fmap in Hrule as (pattern & Hport%(f_equal snd) & _).
  apply (list_elem_of_fmap_2 wc_port) in Hwc.
  rewrite instances_ports in Hwc. apply elem_of_seqZ in Hwc.
  change (catch_all.2) with ("http://localhost:" +:+ pretty 8008) in Hport.
  apply (inj (String.append "http://localhost:")), (inj pretty) in Hport. lia.
Qed.

(** C2: the rules nginx reads in the text a run appends to the site are
    the rules of the instances, in request order, followed by the rule of
    the main process, which matches /_matrix and /_synapse and points at
    port 8008.  That rule occurs once, in the last place: every other rule
    comes before it. *)
Theorem worker_rules_precede_catch_all `{E : Externals} environ config_path
    data_dir w original_config listeners :
  ready environ config_path w original_config listeners →
  ∃ w' text insts,
    generate_worker_files environ config_path data_dir w = Ok w'
    ∧ files w' !! nginx_path = Some (content nginx_path w +:+ text)
    ∧ descriptors w'
      = descriptors w ++ ((λ wc, (descriptor_path (wc_name wc), wc)) <$> insts)
    ∧ nginx_rules text = (insts ≫= worker_rules) ++ [catch_all]
    ∧ catch_all = ("^(\/_matrix|\/_synapse)", "http://localhost:8008")
    ∧ (catch_all ∉ insts ≫= worker_rules)
    ∧ ∀ (i j : nat) rule,
        nginx_rules text !! i = Some rule → rule ≠ catch_all →
        nginx_rules text !! j = Some catch_all → (i < j)%nat.
Proof.
  intros Hready.
  destruct (generate_worker_files_ok _ _ data_dir _ _ _ Hready) as (w' & Hrun & Hout).
  exists w', (emitted_nginx (instances config_path 18009 (read_worker_types environ))),
    (instances config_path 18009 (read_worker_types environ)).
  pose proof (catch_all_not_worker_rule config_path (read_worker_types environ))
    as Hnot.
  split_and!; [done|apply Hout|apply Hout|apply nginx_rules_emitted|done|done|].
  rewrite nginx_rules_emitted. intros i j rule Hi Hrule Hj.
  apply lookup_app_Some in Hi as [Hi|[_ Hi]].
  - apply lookup_lt_Some in Hi.
    apply lookup_app_Some in Hj as [Hj|[Hj _]]; [|lia].
    by apply list_elem_of_lookup_2 in Hj.
  - apply list_lookup_singleton_Some in Hi as [_ ?]. congruence.
Qed.

Lemma worker_rules_precede_catch_all_witness :
  ∃ w' text insts,
    generate_worker_files (E := example_externals)
      {[ "SYNAPSE_WORKERS" := "user_dir,federation_inbound" ]}
      "/data/homeserver.yaml" "/data" example_world = Ok w'
    ∧ files w' !! nginx_path = Some (content nginx_path example_world +:+ text)
    ∧ descriptors w'
      = descriptors example_world
          ++ ((λ wc, (descriptor_path (wc_name wc), wc)) <$> insts)
    ∧ nginx_rules text = (insts ≫= worker_rules) ++ [catch_all]
    ∧ catch_all = ("^(\/_matrix|\/_synapse)", "http://localhost:8008")
    ∧ (catch_all ∉ insts ≫= worker_rules)
    ∧ ∀ (i j : nat) rule,
        nginx_rules text !! i = Some rule → rule ≠ catch_all →
        nginx_rules text !! j = Some catch_all → (i < j)%nat.
Proof.
  exact (worker_rules_precede_catch_all (E := example_externals)
           {[ "SYNAPSE_WORKERS" := "user_dir,federation_inbound" ]}
           "/data/homeserver.yaml" "/data" example_world _ _ (example_ready _)).
Defined.

(** ** The supervisord programs *)

(** The programs of a run that goes through. *)
Lemma programs_of_run `{E : Externals} environ config_path data_dir w
    original_config listeners :
  ready environ config_path w original_config listeners →
  single_line config_path →
  ∃ w' text,
    generate_worker_files environ config_path data_dir w = Ok w'
    ∧ files w' !! supervisord_path = Some (content supervisord_path w +:+ text)
    ∧ programs text
      = nginx_program :: main_program
          :: (worker_entry
                <$> instances config_path 18009 (read_worker_types environ)).
Proof.
  intros Hready Hcp.
  destruct (generate_worker_files_ok _ _ data_dir _ _ _ Hready) as (w' & Hrun & Hout).
  exists w', (emitted_supervisord config_path
                (instances config_path 18009 (read_worker_types environ))).
  split_and!; [done|apply Hout|by apply programs_emitted].
Qed.

(** C4, as the code has it: the main process has priority 1, nginx and
    every worker have priority 500.  supervisord starts the lower value
    first, so the main process starts before nginx and before every worker,
    and nginx does not start before the main process.  Every worker has
    the priority of nginx: the priorities put no order between nginx and
    the workers. *)
Theorem main_process_starts_first `{E : Externals} environ config_path data_dir w
    original_config listeners :
  ready environ config_path w original_config listeners →
  single_line config_path →
  ∃ w' text proxy main workers,
    generate_worker_files environ config_path data_dir w = Ok w'
    ∧ files w' !! supervisord_path = Some (content supervisord_path w +:+ text)
    ∧ programs text = proxy :: main :: workers
    ∧ p_name proxy = "nginx"
    ∧ p_name main = "synapse_main"
    ∧ p_name <$> workers
      = String.append "synapse_" <$> valid_names (read_worker_types environ)
    ∧ p_priority main = Some 1%N
    ∧ p_priority proxy = Some 500%N
    ∧ starts_before main proxy
    ∧ ¬ starts_before proxy main
    ∧ Forall (λ p, p_priority p = Some 500%N ∧ starts_before main p
                   ∧ p_priority p = p_priority proxy) workers.
Proof.
  intros Hready Hcp.
  destruct (programs_of_run _ _ data_dir _ _ _ Hready Hcp)
    as (w' & text & Hrun & Hfile & Hprograms).
  exists w', text, nginx_program, main_program,
    (worker_entry <$> instances config_path 18009 (read_worker_types environ)).
  assert (starts_before main_program nginx_program) as Hmain.
  { exists 1%N, 500%N. by split_and!. }
  split_and!; try done.
  - rewrite <-list_fmap_compose, <-(instances_names config_path 18009),
      <-list_fmap_compose. done.
  - intros (a & b & [= <-] & [= <-] & ?). lia.
  - apply Forall_fmap, Forall_forall. intros wc _. split_and!; [done| |done].
    exists 1%N, 500%N. by split_and!.
Qed.

Lemma main_process_starts_first_witness :
  ∃ w' text proxy main workers,
    generate_worker_files (E := example_externals)
      {[ "SYNAPSE_WORKERS" := "pusher,user_dir" ]}
      "/data/homeserver.yaml" "/data" example_world = Ok w'
    ∧ files w' !! supervisord_path
      = Some (content supervisord_path example_world +:+ text)
    ∧ programs text = proxy :: main :: workers
    ∧ p_name proxy = "nginx"
    ∧ p_name main = "synapse_main"
    ∧ p_name <$> workers
      = String.append "synapse_"
          <$> valid_names
                (read_worker_types {[ "SYNAPSE_WORKERS" := "pusher,user_dir" ]})
    ∧ p_priority main = Some 1%N
    ∧ p_priority proxy = Some 500%N
    ∧ starts_before main proxy
    ∧ ¬ starts_before proxy main
    ∧ Forall (λ p, p_priority p = Some 500%N ∧ starts_before main p
                   ∧ p_priority p = p_priority proxy) workers.
Proof.
  exact (main_process_starts_first (E := example_externals)
           {[ "SYNAPSE_WORKERS" := "pusher,user_dir" ]}
           "/data/homeserver.yaml" "/data" example_world _ _
           (example_ready _) eq_refl).
Defined.

(** The claim as the spec words it fails already for the empty request:
    nginx is not started before the main process, it is started after. *)
Lemma proxy_does_not_start_first :
  ∃ w' text proxy main,
    generate_worker_files (E := example_externals) ∅ "/data/homeserver.yaml"
      "/data" example_world = Ok w'
    ∧ files w' !! supervisord_path = Some text
    ∧ programs text = [proxy; main]
    ∧ p_name proxy = "nginx"
    ∧ p_name main = "synapse_main"
    ∧ ¬ starts_before proxy main
    ∧ starts_before main proxy.
Proof.
  eexists _, _, _, _. split_and!.
  - vm_compute. reflexivity.
  - vm_compute. reflexivity.
  - vm_compute. reflexivity.
  - reflexivity.
  - reflexivity.
  - intros (a & b & [= <-] & [= <-] & ?). lia.
  - exists 1%N, 500%N. by split_and!.
Qed.

(** C8: nginx is restarted after every exit; the main process and every
    worker are restarted after an unexpected exit only, and the one
    expected exit code is 0, so an exit with code 0 restarts none of them
    and any other code restarts them. *)
Theorem restart_policies `{E : Externals} environ config_path data_dir w
    original_config listeners :
  ready environ config_path w original_config listeners →
  single_line config_path →
  ∃ w' text proxy main workers,
    generate_worker_files environ config_path data_dir w = Ok w'
    ∧ files w' !! supervisord_path = Some (content supervisord_path w +:+ text)
    ∧ programs text = proxy :: main :: workers
    ∧ p_name proxy = "nginx"
    ∧ p_name main = "synapse_main"
    ∧ p_name <$> workers
      = String.append "synapse_" <$> valid_names (read_worker_types environ)
    ∧ p_autorestart proxy = Some "true"
    ∧ (∀ code, restarts proxy code = Some true)
    ∧ Forall (λ p, p_autorestart p = Some "unexpected"
                   ∧ p_exitcodes p = Some [0%N]
                   ∧ restarts p 0 = Some false
                   ∧ ∀ code, code ≠ 0%N → restarts p code = Some true)
             (main :: workers).
Proof.
  intros Hready Hcp.
  destruct (programs_of_run _ _ data_dir _ _ _ Hready Hcp)
    as (w' & text & Hrun & Hfile & Hprograms).
  exists w', text, nginx_program, main_program,
    (worker_entry <$> instances config_path 18009 (read_worker_types environ)).
  assert (∀ p, p_autorestart p = Some "unexpected" → p_exitcodes p = Some [0%N] →
               restarts p 0 = Some false
               ∧ ∀ code, code ≠ 0%N → restarts p code = Some true) as Hrestart.
  { intros p Hp Hcodes. unfold restarts. rewrite Hp, Hcodes. simpl.
    split; [done|]. intros code Hcode. f_equal.
    apply bool_decide_eq_true. by intros ->%list_elem_of_singleton. }
  split_and!; try done.
  - rewrite <-list_fmap_compose, <-(instances_names config_path 18009),
      <-list_fmap_compose. done.
  - apply Forall_cons. split; [by split_and!; try apply Hrestart|].
    apply Forall_fmap, Forall_forall. intros wc _.
    by split_and!; try apply Hrestart.
Qed.

Lemma restart_policies_witness :
  ∃ w' text proxy main workers,
    generate_worker_files (E := example_externals)
      {[ "SYNAPSE_WORKERS" := "synchrotron" ]}
      "/data/homeserver.yaml" "/data" example_world = Ok w'
    ∧ files w' !! supervisord_path
      = Some (content supervisord_path example_world +:+ text)
    ∧ programs text = proxy :: main :: workers
    ∧ p_name proxy = "nginx"
    ∧ p_name main = "synapse_main"
    ∧ p_name <$> workers
      = String.append "synapse_"
          <$> valid_names
                (read_worker_types {[ "SYNAPSE_WORKERS" := "synchrotron" ]})
    ∧ p_autorestart proxy = Some "true"
    ∧ (∀ code, restarts proxy code = Some true)
    ∧ Forall (λ p, p_autorestart p = Some "unexpected"
                   ∧ p_exitcodes p = Some [0%N]
                   ∧ restarts p 0 = Some false
                   ∧ ∀ code, code ≠ 0%N → restarts p code = Some true)
             (main :: workers).
Proof.
  exact (restart_policies (E := example_externals)
           {[ "SYNAPSE_WORKERS" := "synchrotron" ]}
           "/data/homeserver.yaml" "/data" example_world _ _
           (example_ready _) eq_refl).
Defined.

(** C9: the text of a run has one nginx program, one main program and,
    after them, one program per instance of the request, named after the
    worker type; no worker program is called nginx or synapse_main.  With
    one instance per worker type, the only case the script supports, the
    names are pairwise distinct. *)
Theorem one_program_per_instance `{E : Externals} environ config_path data_dir w
    original_config listeners :
  ready environ config_path w original_config listeners →
  single_line config_path →
  ∃ w' text workers,
    generate_worker_files environ config_path data_dir w = Ok w'
    ∧ files w' !! supervisord_path = Some (content supervisord_path w +:+ text)
    ∧ p_name <$> programs text = "nginx" :: "synapse_main" :: workers
    ∧ workers
      = String.append "synapse_" <$> valid_names (read_worker_types environ)
    ∧ workers
      = (λ d, "synapse_" +:+ wc_name d.2)
          <$> drop (length (descriptors w)) (descriptors w')
    ∧ ("nginx" ∉ workers)
    ∧ ("synapse_main" ∉ workers)
    ∧ (NoDup (valid_names (read_worker_types environ))
       → NoDup (p_name <$> programs text)).
Proof.
  intros Hready Hcp.
  destruct (generate_worker_files_ok _ _ data_dir _ _ _ Hready) as (w' & Hrun & Hout).
  set (insts := instances config_path 18009 (read_worker_types environ)) in *.
  set (text := emitted_supervisord config_path insts).
  exists w', text,
    (String.append "synapse_" <$> valid_names (read_worker_types environ)).
  assert (p_name <$> programs text
          = "nginx" :: "synapse_main"
              :: (String.append "synapse_"
                    <$> valid_names (read_worker_types environ))) as Hnames.
  { subst text insts. rewrite programs_emitted by done. simpl. do 2 f_equal.
    by rewrite <-list_fmap_compose, <-(instances_names config_path 18009),
      <-list_fmap_compose. }
  assert (∀ name, name ∈ valid_names (read_worker_types environ) →
                  is_Some (dict_get WORKERS_CONFIG name)) as Hvalid.
  { intros name Hname. rewrite <-(instances_names config_path 18009) in Hname.
    apply list_elem_of_fmap in Hname as (wc & -> & Hwc).
    apply instances_registered in Hwc as (d & Hd & _). eauto. }
  assert ("nginx" ∉ String.append "synapse_"
                      <$> valid_names (read_worker_types environ)) as Hnginx.
  { by intros (name & ? & _)%list_elem_of_fmap. }
  assert ("synapse_main" ∉ String.append "synapse_"
                             <$> valid_names (read_worker_types environ))
    as Hmain.
  { intros (name & Heq & Hname)%list_elem_of_fmap.
    apply (inj (String.append "synapse_") "main") in Heq as <-.
    by destruct (Hvalid _ Hname). }
  split_and!; try done.
  - apply Hout.
  - rewrite (out_descriptors _ _ _ _ _ _ Hout), drop_app_length.
    rewrite <-(instances_names config_path 18009), <-!list_fmap_compose. done.
  - intros Hnodup. rewrite Hnames.
    apply NoDup_cons. split.
    { rewrite not_elem_of_cons. split; [done|]. apply Hnginx. }
    apply NoDup_cons. split; [done|]. by apply (NoDup_fmap_2 _).
Qed.

Lemma one_program_per_instance_witness :
  ∃ w' text workers,
    generate_worker_files (E := example_externals)
      {[ "SYNAPSE_WORKERS" := "pusher,appservice" ]}
      "/data/homeserver.yaml" "/data" example_world = Ok w'
    ∧ files w' !! supervisord_path
      = Some (content supervisord_path example_world +:+ text)
    ∧ p_name <$> programs text = "nginx" :: "synapse_main" :: workers
    ∧ workers
      = String.append "synapse_"
          <$> valid_names
                (read_worker_types {[ "SYNAPSE_WORKERS" := "pusher,appservice" ]})
    ∧ workers
      = (λ d, "synapse_" +:+ wc_name d.2)
          <$> drop (length (descriptors example_world)) (descriptors w')
    ∧ ("nginx" ∉ workers)
    ∧ ("synapse_main" ∉ workers)
    ∧ (NoDup (valid_names
                (read_worker_types {[ "SYNAPSE_WORKERS" := "pusher,appservice" ]}))
       → NoDup (p_name <$> programs text)).
Proof.
  exact (one_program_per_instance (E := example_externals)
           {[ "SYNAPSE_WORKERS" := "pusher,appservice" ]}
           "/data/homeserver.yaml" "/data" example_world _ _
           (example_ready _) eq_refl).
Defined.

(** ** The scenarios of the specification, run *)

(** "federation_reader,user_dir": ports 18009 and 18010, four programs,
    the eighteen federation rules, the user directory rule, the
    catch-all. *)
Example scenario_two_workers :
  let result :=
    generate_worker_files (E := example_externals)
      {[ "SYNAPSE_WORKERS" := "federation_reader,user_dir" ]}
      "/data/homeserver.yaml" "/data" example_world in
  (λ w', (λ d, (wc_name d.2, wc_port d.2)) <$> descriptors w') <$> result
  = Ok [("federation_reader", 18009); ("user_dir", 18010)]
  ∧ (λ w', p_name <$> programs (content supervisord_path w')) <$> result
    = Ok ["nginx"; "synapse_main"; "synapse_federation_reader"; "synapse_user_dir"]
  ∧ (λ w', (λ rule, rule.2) <$> nginx_rules (content nginx_path w')) <$> result
    = Ok (replicate 18 "http://localhost:18009"
            ++ ["http://localhost:18010"; "http://localhost:8008"]).
Proof. by vm_compute. Qed.

(** No request: two programs, the catch-all rule alone, no descriptor. *)
Example scenario_no_workers :
  let result :=
    generate_worker_files (E := example_externals) ∅
      "/data/homeserver.yaml" "/data" example_world in
  (λ w', descriptors w') <$> result = Ok []
  ∧ (λ w', programs (content supervisord_path w')) <$> result
    = Ok [nginx_program; main_program]
  ∧ (λ w', nginx_rules (content nginx_path w')) <$> result = Ok [catch_all].
Proof. by vm_compute. Qed.

(** Without the base config the run stops at once. *)
Example scenario_no_config :
  generate_worker_files (E := example_externals) ∅ "/data/homeserver.yaml" "/data"
    {| files := ∅; dirs := ∅; stdout := []; descriptors := [] |}
  = Raise (FileNotFoundError "/data/homeserver.yaml").
Proof. reflexivity. Qed.

(** * Further properties of the script *)

(** ** When a run goes through, and how it fails *)

(** X1: a run returns normally only when the base config is there and
    parses to a dict whose listeners can be added to a list, and the
    template is there if the request names a known worker. *)
Theorem run_needs_ready `{E : Externals} environ config_path data_dir w w' :
  generate_worker_files environ config_path data_dir w = Ok w' →
  ∃ original_config listeners,
    ready environ config_path w original_config listeners.
Proof. apply generate_worker_files_ready. Qed.

Lemma run_needs_ready_witness :
  ∃ original_config listeners,
    ready (E := example_externals) {[ "SYNAPSE_WORKERS" := "pusher" ]}
      "/data/homeserver.yaml" example_world original_config listeners.
Proof.
  eapply (run_needs_ready (E := example_externals)
            {[ "SYNAPSE_WORKERS" := "pusher" ]} "/data/homeserver.yaml" "/data"
            example_world).
  vm_compute. reflexivity.
Defined.

Lemma instances_nil_valid_names config_path port worker_types :
  instances config_path port worker_types = [] ↔ valid_names worker_types = [].
Proof.
  rewrite <-(instances_names config_path port).
  split; [by intros ->|]. by intros ?%fmap_nil_inv.
Qed.

Lemma path_exists_false_no_file path w :
  path_exists path w = false → files w !! path = None.
Proof.
  unfold path_exists. intros [_ Hfile%bool_decide_eq_false]%orb_false_elim.
  destruct (files w !! path); [|done]. by destruct Hfile.
Qed.

(** X2: the base config decides first.  Whatever is requested, a run
    raises [FileNotFoundError] when there is nothing at the path of the
    base config, the error of the parser when the file does not parse,
    [AttributeError] when it parses to something that is not a dict, and
    [TypeError] when its listeners are [true] or a number other than zero,
    which a list cannot be extended with. *)
Theorem base_config_errors `{E : Externals} environ config_path data_dir w :
  (path_exists config_path w = false →
   generate_worker_files environ config_path data_dir w
   = Raise (FileNotFoundError config_path))
  ∧ (∀ file_stream,
       files w !! config_path = Some file_stream →
       yaml_safe_load file_stream = None →
       generate_worker_files environ config_path data_dir w = Raise YAMLError)
  ∧ (∀ file_stream original_config,
       files w !! config_path = Some file_stream →
       yaml_safe_load file_stream = Some original_config →
       (∀ m, original_config ≠ YMap m) →
       generate_worker_files environ config_path data_dir w
       = Raise AttributeError)
  ∧ (∀ file_stream m v,
       files w !! config_path = Some file_stream →
       yaml_safe_load file_stream = Some (YMap m) →
       dict_get m "listeners" = Some v →
       (∃ z, v = YInt z ∧ z ≠ 0) ∨ v = YBool true →
       generate_worker_files environ config_path data_dir w = Raise TypeError).
Proof.
  unfold generate_worker_files, read_file. split_and!.
  - intros Hfile%path_exists_false_no_file. by rewrite Hfile.
  - intros file_stream Hfile Hyaml. rewrite Hfile. simpl. by rewrite Hyaml.
  - intros file_stream original_config Hfile Hyaml Hdict.
    rewrite Hfile. simpl. rewrite Hyaml. simpl.
    destruct original_config as [| | | | |m]; try done. by destruct (Hdict m).
  - intros file_stream m v Hfile Hyaml Hv Hbad.
    rewrite Hfile. simpl. rewrite Hyaml. simpl.
    unfold build_listeners, yaml_get. rewrite Hv. simpl.
    destruct Hbad as [(z & -> & Hz)| ->]; [|done].
    simpl. apply Z.eqb_neq in Hz. by rewrite Hz.
Qed.

Lemma base_config_errors_witness :
  generate_worker_files (E := example_externals) {[ "SYNAPSE_WORKERS" := "*" ]}
    "/data/homeserver.yaml" "/data"
    {| files := ∅; dirs := ∅; stdout := []; descriptors := [] |}
  = Raise (FileNotFoundError "/data/homeserver.yaml")
  ∧ generate_worker_files (E := example_externals) ∅
      "/data/homeserver.yaml" "/data"
      {| files := {[ "/data/homeserver.yaml" := "3" ]}; dirs := ∅;
         stdout := []; descriptors := [] |}
    = Raise YAMLError
  ∧ generate_worker_files (E := example_loader (YInt 3)) ∅
      "/data/homeserver.yaml" "/data"
      {| files := {[ "/data/homeserver.yaml" := "3" ]}; dirs := ∅;
         stdout := []; descriptors := [] |}
    = Raise AttributeError
  ∧ generate_worker_files
      (E := example_loader (YMap [("listeners", YInt 8008)])) ∅
      "/data/homeserver.yaml" "/data"
      {| files := {[ "/data/homeserver.yaml" := "3" ]}; dirs := ∅;
         stdout := []; descriptors := [] |}
    = Raise TypeError.
Proof.
  split_and!.
  - apply (base_config_errors (E := example_externals)). by vm_compute.
  - apply (proj1 (proj2 (base_config_errors (E := example_externals) ∅
                           "/data/homeserver.yaml" "/data"
                           {| files := {[ "/data/homeserver.yaml" := "3" ]}; dirs := ∅;
         stdout := []; descriptors := [] |}))
             "3"); done.
  - apply (proj1 (proj2 (proj2 (base_config_errors
                                  (E := example_loader (YInt 3)) ∅
                                  "/data/homeserver.yaml" "/data"
                                  {| files := {[ "/data/homeserver.yaml" := "3" ]}; dirs := ∅;
         stdout := []; descriptors := [] |})))
             "3" (YInt 3)); done.
  - apply (proj2 (proj2 (proj2 (base_config_errors
                                  (E := example_loader
                                          (YMap [("listeners", YInt 8008)])) ∅
                                  "/data/homeserver.yaml" "/data"
                                  {| files := {[ "/data/homeserver.yaml" := "3" ]}; dirs := ∅;
         stdout := []; descriptors := [] |})))
             "3" [("listeners", YInt 8008)] (YInt 8008)); [done..|].
    left. by exists 8008.
Defined.

(** X3: with a good base config and no template, the request decides: a
    run that names a known worker dies on the template at that worker, a
    run that names none goes through and hands nothing to jinja2. *)
Theorem missing_template_matters_only_with_workers `{E : Externals} environ
    config_path data_dir w file_stream original_config listeners :
  files w !! config_path = Some file_stream →
  yaml_safe_load file_stream = Some original_config →
  build_listeners original_config = Ok listeners →
  files w !! template_path = None →
  if decide (valid_names (read_worker_types environ) = [])
  then ∃ w', generate_worker_files environ config_path data_dir w = Ok w'
             ∧ descriptors w' = descriptors w
             ∧ files w' !! template_path = None
  else generate_worker_files environ config_path data_dir w
       = Raise (FileNotFoundError template_path).
Proof.
  intros Hfile Hyaml Hl Htpl. case_decide as Hvalid.
  - assert (ready environ config_path w original_config listeners) as Hready.
    { split; [by eauto|done|].
      by rewrite (instances_nil_valid_names config_path 18009). }
    destruct (generate_worker_files_ok _ _ data_dir _ _ _ Hready) as (w' & Hrun & Hout).
    exists w'. split_and!; [done| |].
    + rewrite (out_descriptors _ _ _ _ _ _ Hout).
      apply (instances_nil_valid_names config_path 18009) in Hvalid.
      rewrite Hvalid. simpl. by rewrite (right_id_L [] (++)).
    + rewrite (out_other _ _ _ _ _ _ Hout) by done.
      rewrite loop_files_lookup_other; [done|].
      intros. apply descriptor_not_template.
  - unfold generate_worker_files, read_file. rewrite Hfile. simpl.
    rewrite Hyaml. simpl. rewrite Hl. simpl.
    rewrite for_each_worker_iteration_no_template; [done..|].
    by rewrite (instances_nil_valid_names config_path 18009).
Qed.

Lemma missing_template_matters_only_with_workers_witness :
  if decide (valid_names (read_worker_types {[ "SYNAPSE_WORKERS" := "pusher" ]}) = [])
  then ∃ w', generate_worker_files (E := example_externals)
               {[ "SYNAPSE_WORKERS" := "pusher" ]} "/data/homeserver.yaml" "/data"
               {| files := {[ "/data/homeserver.yaml" := "{}" ]}; dirs := ∅;
                  stdout := []; descriptors := [] |} = Ok w'
             ∧ descriptors w' = []
             ∧ files w' !! template_path = None
  else generate_worker_files (E := example_externals)
         {[ "SYNAPSE_WORKERS" := "pusher" ]} "/data/homeserver.yaml" "/data"
         {| files := {[ "/data/homeserver.yaml" := "{}" ]}; dirs := ∅;
            stdout := []; descriptors := [] |}
       = Raise (FileNotFoundError template_path).
Proof.
  exact (missing_template_matters_only_with_workers (E := example_externals)
           {[ "SYNAPSE_WORKERS" := "pusher" ]} "/data/homeserver.yaml" "/data"
           {| files := {[ "/data/homeserver.yaml" := "{}" ]}; dirs := ∅;
              stdout := []; descriptors := [] |}
           "{}" (YMap []) [replication_listener]
           eq_refl eq_refl eq_refl eq_refl).
Defined.

(** ** What a run writes, and what it leaves alone *)

(** X4: a run changes no file but the shared patch, the nginx site, the
    supervisord file and the descriptors of the known names it was asked
    for: every other path holds what it held, the base config and the
    template among them. *)
Theorem other_files_untouched `{E : Externals} environ config_path data_dir w
    original_config listeners path :
  ready environ config_path w original_config listeners →
  path ∉ output_paths environ →
  ∃ w', generate_worker_files environ config_path data_dir w = Ok w'
        ∧ files w' !! path = files w !! path
        ∧ files w' !! template_path = files w !! template_path.
Proof.
  intros Hready Hpath.
  destruct (generate_worker_files_ok _ _ data_dir _ _ _ Hready) as (w' & Hrun & Hout).
  exists w'. split; [done|].
  unfold output_paths in Hpath. rewrite !not_elem_of_cons in Hpath.
  destruct Hpath as (? & ? & ? & Hpath).
  split.
  - rewrite (out_other _ _ _ _ _ _ Hout) by done.
    apply loop_files_lookup_other. intros wc Hwc Heq. apply Hpath.
    rewrite <-Heq. apply list_elem_of_fmap_2.
    rewrite <-(instances_names config_path 18009).
    by apply list_elem_of_fmap_2.
  - rewrite (out_other _ _ _ _ _ _ Hout) by done.
    apply loop_files_lookup_other. intros. apply descriptor_not_template.
Qed.

Lemma other_files_untouched_witness :
  ∃ w', generate_worker_files (E := example_externals)
          {[ "SYNAPSE_WORKERS" := "pusher" ]} "/data/homeserver.yaml" "/data"
          example_world = Ok w'
        ∧ files w' !! "/data/homeserver.yaml"
          = files example_world !! "/data/homeserver.yaml"
        ∧ files w' !! template_path = files example_world !! template_path.
Proof.
  apply (other_files_untouched (E := example_externals)
           {[ "SYNAPSE_WORKERS" := "pusher" ]} "/data/homeserver.yaml" "/data"
           example_world _ _ "/data/homeserver.yaml" (example_ready _)).
  apply (bool_decide_unpack _). by vm_compute.
Defined.

(** X5: a descriptor file holds the rendering of the last dict [convert]
    was given for its path: with the template the run started with, and,
    when a known name is requested more than once, with the port of its
    last occurrence. *)
Theorem descriptor_file_is_last_rendering `{E : Externals} environ config_path
    data_dir w original_config listeners :
  ready environ config_path w original_config listeners →
  ∃ w', generate_worker_files environ config_path data_dir w = Ok w'
        ∧ ∀ before path wc after,
            drop (length (descriptors w)) (descriptors w')
            = before ++ (path, wc) :: after →
            path ∉ after.*1 →
            files w' !! path
            = Some (jinja_render (content template_path w) wc).
Proof.
  intros Hready.
  destruct (generate_worker_files_ok _ _ data_dir _ _ _ Hready) as (w' & Hrun & Hout).
  exists w'. split; [done|]. intros before path wc after Hsplit Hlast.
  rewrite (out_descriptors _ _ _ _ _ _ Hout), drop_app_length in Hsplit.
  apply fmap_app_inv in Hsplit as (insts1 & insts' & -> & Hrest & Hinsts).
  symmetry in Hrest.
  apply fmap_cons_inv in Hrest as (wc' & insts2 & [= -> ->] & -> & ->).
  assert (wc' ∈ instances config_path 18009 (read_worker_types environ)) as Hwc.
  { rewrite Hinsts. apply elem_of_app. right. by left. }
  apply instances_registered in Hwc as (d & Hd & _).
  rewrite (out_other _ _ _ _ _ _ Hout)
    by eauto using descriptor_not_shared, descriptor_not_nginx,
         descriptor_not_supervisord.
  rewrite Hinsts. unfold loop_files. rewrite foldl_app. simpl.
  fold (loop_files (content template_path w) insts1 (files w)).
  fold (loop_files (content template_path w) insts2
          (<[descriptor_path (wc_name wc') :=
               jinja_render (content template_path w) wc']>
             (loop_files (content template_path w) insts1 (files w)))).
  rewrite loop_files_lookup_other; [by rewrite lookup_insert_eq|].
  intros wc2 Hwc2 Heq. apply Hlast. rewrite <-Heq, <-list_fmap_compose.
  by apply (list_elem_of_fmap_2 (λ wc, descriptor_path (wc_name wc))).
Qed.

Lemma descriptor_file_is_last_rendering_witness :
  ∃ w', generate_worker_files (E := example_externals)
          {[ "SYNAPSE_WORKERS" := "pusher,pusher" ]} "/data/homeserver.yaml"
          "/data" example_world = Ok w'
        ∧ ∀ before path wc after,
            drop (length (descriptors example_world)) (descriptors w')
            = before ++ (path, wc) :: after →
            path ∉ after.*1 →
            files w' !! path
            = Some (jinja_render (Externals := example_externals)
                      (content template_path example_world) wc).
Proof.
  exact (descriptor_file_is_last_rendering (E := example_externals)
           {[ "SYNAPSE_WORKERS" := "pusher,pusher" ]} "/data/homeserver.yaml"
           "/data" example_world _ _ (example_ready _)).
Defined.

(** A name requested twice: two instances, one file, rendered with the
    second port. *)
Example repeated_name_keeps_second_port :
  (λ w', (files w' !! descriptor_path "pusher",
          (λ d, wc_port d.2) <$> descriptors w'))
    <$> generate_worker_files (E := example_externals)
          {[ "SYNAPSE_WORKERS" := "pusher,pusher" ]} "/data/homeserver.yaml"
          "/data" example_world
  = Ok (Some "worker pusher:18010", [18009; 18010]).
Proof. by vm_compute. Qed.

(** X6: a run that returns leaves the directory of the worker configs
    and the log directory of the data directory in place, and removes no
    directory. *)
Theorem returned_run_left_directories `{E : Externals} environ config_path
    data_dir w w' :
  generate_worker_files environ config_path data_dir w = Ok w' →
  "/conf/workers" ∈ dirs w'
  ∧ path_exists (data_dir +:+ "/logs") w' = true
  ∧ dirs w ⊆ dirs w'.
Proof.
  intros Hrun.
  destruct (generate_worker_files_ready _ _ _ _ _ Hrun)
    as (original_config & listeners & Hready).
  destruct (generate_worker_files_ok _ _ data_dir _ _ _ Hready)
    as (w'' & Hrun' & Hout).
  assert (w'' = w') as -> by congruence.
  pose proof (out_dirs _ _ _ _ _ _ Hout) as Hdirs. unfold path_exists.
  destruct (bool_decide (is_Some (files w' !! (data_dir +:+ "/logs")))).
  - rewrite orb_true_r, Hdirs. split_and!; [|done|].
    + apply elem_of_union. left. by apply elem_of_singleton.
    + intros x Hx. apply elem_of_union. by right.
  - rewrite orb_false_r, Hdirs. split_and!.
    + apply elem_of_union. right. apply elem_of_union. left.
      by apply elem_of_singleton.
    + apply bool_decide_eq_true, elem_of_union. left. by apply elem_of_singleton.
    + intros x Hx. apply elem_of_union. right. apply elem_of_union. by right.
Qed.

Lemma returned_run_left_directories_witness :
  ∃ w', generate_worker_files (E := example_externals) ∅
          "/data/homeserver.yaml" "/data" example_world = Ok w'
        ∧ "/conf/workers" ∈ dirs w'
        ∧ path_exists ("/data" +:+ "/logs") w' = true
        ∧ dirs example_world ⊆ dirs w'.
Proof.
  eexists. split; [by vm_compute|].
  apply (returned_run_left_directories (E := example_externals) ∅
           "/data/homeserver.yaml" "/data" example_world).
  by vm_compute.
Defined.

(** ** What a run prints *)




(** ** The request string *)

Lemma rstrip_cons_nonspace c s :
  py_isspace c = false → rstrip (String c s) = String c (rstrip s).
Proof. intros Hc. simpl. rewrite Hc. by destruct (rstrip s). Qed.

Lemma rstrip_idemp s : rstrip (rstrip s) = rstrip s.
Proof.
  induction s as [|c s IH]; [done|]. simpl.
  destruct (rstrip s) as [|c' r] eqn:Hr.
  - destruct (py_isspace c) eqn:Hc; [done|]. by rewrite rstrip_cons_nonspace.
  - simpl. simpl in IH. by rewrite IH.
Qed.

Lemma lstrip_head s :
  lstrip s = "" ∨ ∃ c r, lstrip s = String c r ∧ py_isspace c = false.
Proof.
  induction s as [|c s IH]; [by left|]. simpl.
  destruct (py_isspace c) eqn:Hc; [done|]. right. eauto.
Qed.

Lemma strip_idemp s : strip (strip s) = strip s.
Proof.
  unfold strip. destruct (lstrip_head s) as [->|(c & r & -> & Hc)]; [done|].
  rewrite rstrip_cons_nonspace by done.
  change (lstrip (String c (rstrip r)))
    with (if py_isspace c then lstrip (rstrip r) else String c (rstrip r)).
  rewrite Hc, rstrip_cons_nonspace by done. by rewrite rstrip_idemp.
Qed.

Lemma worker_iteration_strip `{E : Externals} config_path st worker_type :
  worker_iteration config_path st (strip worker_type)
  = worker_iteration config_path st worker_type.
Proof. unfold worker_iteration. by rewrite strip_idemp. Qed.

Lemma for_each_strip `{E : Externals} config_path worker_types st :
  for_each (worker_iteration config_path) (strip <$> worker_types) st
  = for_each (worker_iteration config_path) worker_types st.
Proof.
  revert st. induction worker_types as [|t ts IH]; intros st; [done|].
  rewrite fmap_cons. cbn [for_each]. rewrite worker_iteration_strip.
  destruct (worker_iteration config_path st t); [apply IH|done].
Qed.

Lemma generate_worker_files_stripped `{E : Externals} environ environ'
    config_path data_dir w :
  strip <$> read_worker_types environ = strip <$> read_worker_types environ' →
  generate_worker_files environ config_path data_dir w
  = generate_worker_files environ' config_path data_dir w.
Proof.
  intros Heq. unfold generate_worker_files.
  destruct (read_file config_path w) as [file_stream|]; [simpl|done].
  destruct (yaml_safe_load file_stream) as [original_config|]; [simpl|done].
  destruct (build_listeners original_config) as [listeners|]; [simpl|done].
  rewrite <-(for_each_strip _ (read_worker_types environ)), Heq, for_each_strip.
  done.
Qed.

(** X8: of the environment a run reads the requested names only, and
    ASCII white space around a name does not count: two environments whose
    requests agree name by name once the ASCII white space around each name
    is removed give the same result, world or exception. *)
Theorem only_stripped_names_matter `{E : Externals} environ environ' config_path
    data_dir w :
  strip <$> read_worker_types environ = strip <$> read_worker_types environ' →
  generate_worker_files environ config_path data_dir w
  = generate_worker_files environ' config_path data_dir w.
Proof. apply generate_worker_files_stripped. Qed.

Lemma only_stripped_names_matter_witness :
  generate_worker_files (E := example_externals)
    {[ "SYNAPSE_WORKERS" := " pusher , user_dir" ]}
    "/data/homeserver.yaml" "/data" example_world
  = generate_worker_files (E := example_externals)
      {[ "SYNAPSE_WORKERS" := "pusher,user_dir"; "SYNAPSE_NO_TLS" := "yes" ]}
      "/data/homeserver.yaml" "/data" example_world.
Proof.
  exact (only_stripped_names_matter (E := example_externals)
           {[ "SYNAPSE_WORKERS" := " pusher , user_dir" ]}
           {[ "SYNAPSE_WORKERS" := "pusher,user_dir"; "SYNAPSE_NO_TLS" := "yes" ]}
           "/data/homeserver.yaml" "/data" example_world eq_refl).
Defined.

Lemma split_join_commas names :
  names ≠ [] → Forall (λ name, contains_char ","%char name = false) names →
  split ","%char (join_commas names) = names.
Proof.
  intros Hne Hnames. induction Hnames as [|name names Hname Hnames IH]; [done|].
  destruct names as [|name' names].
  - by apply split_single.
  - change (join_commas (name :: name' :: names))
      with (name +:+ String ","%char (join_commas (name' :: names))).
    rewrite split_app_sep, IH by done. by rewrite split_single.
Qed.

(** X9: a request written as names joined by commas is read back as the
    same names in the same order, provided there is a name, no name holds
    a comma, and the whole is not the wildcard. *)
Theorem request_round_trip environ names :
  names ≠ [] →
  Forall (λ name, contains_char ","%char name = false) names →
  join_commas names ≠ "*" →
  read_worker_types (<["SYNAPSE_WORKERS" := join_commas names]> environ) = names.
Proof.
  intros Hne Hnames Hstar. unfold read_worker_types.
  rewrite lookup_insert_eq. case_decide; [done|]. by apply split_join_commas.
Qed.

Lemma request_round_trip_witness :
  read_worker_types
    (<["SYNAPSE_WORKERS" := join_commas ["pusher"; " nope"; ""; "user_dir"]]> ∅)
  = ["pusher"; " nope"; ""; "user_dir"].
Proof.
  apply (request_round_trip ∅ ["pusher"; " nope"; ""; "user_dir"]).
  - done.
  - by repeat constructor.
  - done.
Defined.

(** ** The shared patch *)

Lemma registry_fragment_single_line name d :
  dict_get WORKERS_CONFIG name = Some d → single_line (shared_extra_conf d).
Proof.
  intros H%dict_get_registered. unfold WORKERS_CONFIG in H.
  repeat (apply elem_of_cons in H as [[= -> ->]|H]; [done|]).
  by apply elem_of_nil in H.
Qed.

Lemma fragments_unlines (fragments : list string) :
  concat_str ((λ fragment, fragment +:+ nl) <$> fragments)
  = unlines (fragments ++ [""]).
Proof.
  induction fragments as [|fragment fragments IH]; [done|].
  change (concat_str ((λ fragment, fragment +:+ nl) <$> fragment :: fragments))
    with ((fragment +:+ nl)
            +:+ concat_str ((λ fragment, fragment +:+ nl) <$> fragments)).
  rewrite IH, app_assoc_str. by destruct fragments.
Qed.

(** X10: after the dumped listeners and the redis block, the text a run
    appends to the shared patch is one line per instance, in request
    order: the [shared_extra_conf] the registry has for its name (an empty
    line for a worker that has none), and nothing after the last one. *)
Theorem shared_patch_fragments `{E : Externals} environ config_path data_dir w
    original_config listeners :
  ready environ config_path w original_config listeners →
  ∃ w' fragments,
    generate_worker_files environ config_path data_dir w = Ok w'
    ∧ files w' !! shared_path
      = Some (content shared_path w
                +:+ nl
                +:+ yaml_dump (YMap [("listeners", YList listeners)])
                +:+ redis_config
                +:+ fragments)
    ∧ lines fragments
      = ((λ d, wc_shared_extra_conf d.2)
           <$> drop (length (descriptors w)) (descriptors w'))
          ++ [""]
    ∧ Forall (λ d, shared_extra_conf <$> dict_get WORKERS_CONFIG (wc_name d.2)
                   = Some (wc_shared_extra_conf d.2))
             (drop (length (descriptors w)) (descriptors w')).
Proof.
  intros Hready.
  destruct (generate_worker_files_ok _ _ data_dir _ _ _ Hready) as (w' & Hrun & Hout).
  set (insts := instances config_path 18009 (read_worker_types environ)) in *.
  exists w', (concat_str ((λ wc, wc_shared_extra_conf wc +:+ nl) <$> insts)).
  rewrite (out_descriptors _ _ _ _ _ _ Hout), drop_app_length.
  split_and!; [done| | |].
  - rewrite (out_shared _ _ _ _ _ _ Hout). unfold emitted_shared.
    by rewrite !app_assoc_str.
  - rewrite <-list_fmap_compose.
    change ((λ wc, wc_shared_extra_conf wc +:+ nl) <$> insts)
      with (((λ fragment, fragment +:+ nl) ∘ wc_shared_extra_conf) <$> insts).
    rewrite list_fmap_compose, fragments_unlines.
    apply lines_unlines; [by intros [_ [=]]%app_eq_nil|].
    apply Forall_app. split; [|by apply Forall_singleton].
    apply Forall_fmap, Forall_forall. intros wc Hwc. simpl.
    apply instances_registered in Hwc as (d & Hd & ->). simpl.
    by eapply registry_fragment_single_line.
  - apply Forall_fmap, Forall_forall. intros wc Hwc. simpl.
    apply instances_registered in Hwc as (d & Hd & Heq).
    rewrite Hd, Heq. done.
Qed.

Lemma shared_patch_fragments_witness :
  ∃ w' fragments,
    generate_worker_files (E := example_externals)
      {[ "SYNAPSE_WORKERS" := "user_dir,synchrotron,pusher" ]}
      "/data/homeserver.yaml" "/data" example_world = Ok w'
    ∧ files w' !! shared_path
      = Some (content shared_path example_world
                +:+ nl
                +:+ yaml_dump (Externals := example_externals)
                      (YMap [("listeners",
                              YList [replication_listener; YStr "main"])])
                +:+ redis_config
                +:+ fragments)
    ∧ lines fragments
      = ((λ d, wc_shared_extra_conf d.2)
           <$> drop (length (descriptors example_world)) (descriptors w'))
          ++ [""]
    ∧ Forall (λ d, shared_extra_conf <$> dict_get WORKERS_CONFIG (wc_name d.2)
                   = Some (wc_shared_extra_conf d.2))
             (drop (length (descriptors example_world)) (descriptors w')).
Proof.
  exact (shared_patch_fragments (E := example_externals)
           {[ "SYNAPSE_WORKERS" := "user_dir,synchrotron,pusher" ]}
           "/data/homeserver.yaml" "/data" example_world _ _ (example_ready _)).
Defined.

(** ** The commands supervisord runs *)

Lemma rstrip_app_keep a b : rstrip b ≠ "" → rstrip (a +:+ b) = a +:+ rstrip b.
Proof.
  intros Hb. induction a as [|c a IH]; [done|].
  rewrite !app_cons. simpl. rewrite IH.
  destruct (a +:+ rstrip b) as [|c' r] eqn:Hr; [|done].
  destruct a; [|done]. by destruct (rstrip b).
Qed.

Lemma rstrip_yaml a : rstrip (a +:+ ".yaml") = a +:+ ".yaml".
Proof. by rewrite rstrip_app_keep. Qed.

Lemma strip_worker_command wc : strip (worker_command wc) = worker_command wc.
Proof.
  unfold strip. change (lstrip (worker_command wc)) with (worker_command wc).
  unfold worker_command, descriptor_path.
  rewrite <-!app_assoc_str. apply rstrip_yaml.
Qed.

Lemma strip_main_command config_path :
  strip (main_command config_path) = main_command config_path.
Proof.
  unfold strip.
  change (lstrip (main_command config_path)) with (main_command config_path).
  unfold main_command.
  change "     --config-path=/conf/workers/shared.yaml"
    with ("     --config-path=/conf/workers/shared" +:+ ".yaml").
  rewrite <-!app_assoc_str. apply rstrip_yaml.
Qed.

Lemma program_command_worker_section wc :
  program_command (worker_section wc)
  = Some ("synapse_" +:+ wc_name wc, worker_command wc).
Proof.
  unfold program_command, worker_section. simpl fst.
  change ("program:synapse_" +:+ wc_name wc)
    with ("program:" +:+ ("synapse_" +:+ wc_name wc)).
  rewrite strip_prefix_app. simpl.
  rewrite <-(strip_worker_command wc). reflexivity.
Qed.

Lemma commands_base config_path sections :
  omap program_command
    (foldr ini_step ([], sections) (supervisord_base_lines config_path)).2
  = ("nginx", nginx_command) :: ("synapse_main", main_command config_path)
      :: omap program_command sections.
Proof.
  rewrite <-(strip_main_command config_path). reflexivity.
Qed.

Lemma commands_emitted config_path port worker_types :
  single_line config_path →
  commands (emitted_supervisord config_path
              (instances config_path port worker_types))
  = ("nginx", nginx_command) :: ("synapse_main", main_command config_path)
      :: ((λ wc, ("synapse_" +:+ wc_name wc, worker_command wc))
            <$> instances config_path port worker_types).
Proof.
  intros Hcp. unfold commands, ini_sections.
  rewrite lines_emitted_supervisord by done.
  unfold ini_read. rewrite foldr_app.
  change (foldr ini_step ([], []) ?ls) with (ini_read ls).
  rewrite ini_read_workers, commands_base. do 2 f_equal.
  induction (instances config_path port worker_types) as [|wc insts IH]; [done|].
  rewrite !fmap_cons. cbn [omap list_omap].
  by rewrite program_command_worker_section, IH.
Qed.

(** X11: the commands supervisord reads in the text of a run.  The main
    process is given the base config, then the shared patch.  Each worker
    runs the entry point the registry has for it and is given the base
    config, then the shared patch, then the very file the run wrote its
    descriptor to, in this order. *)
Theorem commands_layer_the_configs `{E : Externals} environ config_path data_dir
    w original_config listeners :
  ready environ config_path w original_config listeners →
  single_line config_path →
  ∃ w' text,
    generate_worker_files environ config_path data_dir w = Ok w'
    ∧ files w' !! supervisord_path = Some (content supervisord_path w +:+ text)
    ∧ commands text
      = ("nginx", "/usr/sbin/nginx -g " +:+ dquote +:+ "daemon off;" +:+ dquote)
          :: ("synapse_main",
              "/usr/local/bin/python -m synapse.app.homeserver"
                +:+ "     --config-path=" +:+ dquote +:+ config_path +:+ dquote
                +:+ "     --config-path=" +:+ shared_path)
          :: ((λ d,
                 ("synapse_" +:+ wc_name d.2,
                  "/usr/local/bin/python -m " +:+ wc_app d.2
                    +:+ "     --config-path=" +:+ dquote +:+ config_path +:+ dquote
                    +:+ "     --config-path=" +:+ shared_path
                    +:+ "     --config-path=" +:+ d.1))
                <$> drop (length (descriptors w)) (descriptors w'))
    ∧ Forall (λ d, app <$> dict_get WORKERS_CONFIG (wc_name d.2)
                   = Some (wc_app d.2)
                   ∧ is_Some (files w' !! d.1))
             (drop (length (descriptors w)) (descriptors w')).
Proof.
  intros Hready Hcp.
  destruct (generate_worker_files_ok _ _ data_dir _ _ _ Hready) as (w' & Hrun & Hout).
  set (insts := instances config_path 18009 (read_worker_types environ)) in *.
  exists w', (emitted_supervisord config_path insts).
  rewrite (out_descriptors _ _ _ _ _ _ Hout), drop_app_length.
  split_and!; [done|apply Hout| |].
  - subst insts. rewrite commands_emitted by done. do 2 f_equal.
    rewrite <-list_fmap_compose. apply list_fmap_ext. intros i wc Hwc. simpl.
    apply list_elem_of_lookup_2, instances_registered in Hwc as (d & _ & ->).
    reflexivity.
  - apply Forall_fmap, Forall_forall. intros wc Hwc. simpl.
    pose proof Hwc as (d & Hd & Heq)%instances_registered.
    split; [by rewrite Hd, Heq|].
    rewrite (out_other _ _ _ _ _ _ Hout)
      by eauto using descriptor_not_shared, descriptor_not_nginx,
           descriptor_not_supervisord.
    refine (proj2 (loop_files_written _ _ _ (files w) _ _)).
    by apply (list_elem_of_fmap_2 (λ wc, descriptor_path (wc_name wc))).
Qed.

Lemma commands_layer_the_configs_witness :
  ∃ w' text,
    generate_worker_files (E := example_externals)
      {[ "SYNAPSE_WORKERS" := "media_repository" ]}
      "/data/homeserver.yaml" "/data" example_world = Ok w'
    ∧ files w' !! supervisord_path
      = Some (content supervisord_path example_world +:+ text)
    ∧ commands text
      = ("nginx", "/usr/sbin/nginx -g " +:+ dquote +:+ "daemon off;" +:+ dquote)
          :: ("synapse_main",
              "/usr/local/bin/python -m synapse.app.homeserver"
                +:+ "     --config-path=" +:+ dquote +:+ "/data/homeserver.yaml"
                +:+ dquote
                +:+ "     --config-path=" +:+ shared_path)
          :: ((λ d,
                 ("synapse_" +:+ wc_name d.2,
                  "/usr/local/bin/python -m " +:+ wc_app d.2
                    +:+ "     --config-path=" +:+ dquote
                    +:+ "/data/homeserver.yaml" +:+ dquote
                    +:+ "     --config-path=" +:+ shared_path
                    +:+ "     --config-path=" +:+ d.1))
                <$> drop (length (descriptors example_world)) (descriptors w'))
    ∧ Forall (λ d, app <$> dict_get WORKERS_CONFIG (wc_name d.2)
                   = Some (wc_app d.2)
                   ∧ is_Some (files w' !! d.1))
             (drop (length (descriptors example_world)) (descriptors w')).
Proof.
  exact (commands_layer_the_configs (E := example_externals)
           {[ "SYNAPSE_WORKERS" := "media_repository" ]}
           "/data/homeserver.yaml" "/data" example_world _ _
           (example_ready _) eq_refl).
Defined.

(** ** [convert] *)

(** X12: [convert] truncates: when the template is there it goes through,
    the target holds the rendering whatever it held before, no other file
    changes, and a second call with a template that is not the target
    leaves the files as the first did. *)
Theorem convert_overwrites `{E : Externals} src dst environ w template :
  files w !! src = Some template →
  ∃ w', convert src dst environ w = Ok w'
        ∧ files w' !! dst = Some (jinja_render template environ)
        ∧ (∀ path, path ≠ dst → files w' !! path = files w !! path)
        ∧ (∀ before, ∃ w'',
             convert src dst environ (write_file dst before w) = Ok w''
             ∧ (src ≠ dst → files w'' = files w'))
        ∧ (src ≠ dst →
           ∃ w'', convert src dst environ w' = Ok w'' ∧ files w'' = files w').
Proof.
  intros Hsrc. unfold convert, read_file. rewrite Hsrc. simpl.
  eexists. split; [reflexivity|]. simpl. split_and!.
  - by rewrite lookup_insert_eq.
  - intros path Hpath. by rewrite lookup_insert_ne.
  - intros before. simpl.
    destruct (decide (src = dst)) as [->|Hne].
    + rewrite lookup_insert_eq. simpl. eexists. by split.
    + rewrite lookup_insert_ne, Hsrc by done. simpl. eexists.
      split; [reflexivity|]. intros _. simpl. by rewrite insert_insert_eq.
  - intros Hne. rewrite lookup_insert_ne, Hsrc by done. simpl.
    eexists. split; [reflexivity|]. simpl. by rewrite insert_insert_eq.
Qed.

Lemma convert_overwrites_witness :
  ∃ w', convert (E := example_externals) template_path "/conf/workers/x.yaml"
          (copy_update (WorkerDef "a" [] [] "") "x" 1 "/c") example_world = Ok w'
        ∧ files w' !! "/conf/workers/x.yaml"
          = Some (jinja_render (Externals := example_externals) "worker "
                    (copy_update (WorkerDef "a" [] [] "") "x" 1 "/c"))
        ∧ (∀ path, path ≠ "/conf/workers/x.yaml" →
                   files w' !! path = files example_world !! path)
        ∧ (∀ before, ∃ w'',
             convert (E := example_externals) template_path "/conf/workers/x.yaml"
               (copy_update (WorkerDef "a" [] [] "") "x" 1 "/c")
               (write_file "/conf/workers/x.yaml" before example_world) = Ok w''
             ∧ (template_path ≠ "/conf/workers/x.yaml" → files w'' = files w'))
        ∧ (template_path ≠ "/conf/workers/x.yaml" →
           ∃ w'', convert (E := example_externals) template_path
                    "/conf/workers/x.yaml"
                    (copy_update (WorkerDef "a" [] [] "") "x" 1 "/c") w' = Ok w''
                  ∧ files w'' = files w').
Proof.
  exact (convert_overwrites (E := example_externals) template_path
           "/conf/workers/x.yaml" (copy_update (WorkerDef "a" [] [] "") "x" 1 "/c")
           example_world "worker " eq_refl).
Defined.

(** ** [main] *)

Lemma read_worker_types_no_tls environ :
  read_worker_types (<["SYNAPSE_NO_TLS" := "yes"]> environ)
  = read_worker_types environ.
Proof. unfold read_worker_types. by rewrite lookup_insert_ne. Qed.

Lemma generate_worker_files_no_tls `{E : Externals} environ config_path data_dir w :
  generate_worker_files (<["SYNAPSE_NO_TLS" := "yes"]> environ) config_path
    data_dir w
  = generate_worker_files environ config_path data_dir w.
Proof.
  apply generate_worker_files_stripped. by rewrite read_worker_types_no_tls.
Qed.

(** X13: every way [main] can end.  It returns only after supervisord,
    run last, on the world a successful [generate_worker_files] left.  It
    dies in three ways: [/start.py] fails, and nothing else is run;
    [generate_worker_files] raises, and supervisord is not run; supervisord
    itself fails.  The files are generated as under the caller's own
    environment: setting [SYNAPSE_NO_TLS] changes none of them. *)
Theorem main_outcomes `{E : Externals} `{P : Processes} args environ w :
  match main args environ w with
  | Going (environ', w') calls =>
      environ' = <["SYNAPSE_NO_TLS" := "yes"]> environ
      ∧ ∃ w0 w1 calls0,
          bootstrapped environ w w0 calls0
          ∧ generate_worker_files environ (main_config_path environ)
              (main_data_dir environ) w0 = Ok w1
          ∧ run_process supervisord_command environ' w1 = Some w'
          ∧ calls = calls0 ++ [supervisord_command]
  | Died e calls =>
      (path_exists (main_config_path environ) w = false
       ∧ run_process start_py_command (<["SYNAPSE_NO_TLS" := "yes"]> environ)
           (log "Generating base homeserver config" w) = None
       ∧ e = CalledProcessError start_py_command
       ∧ calls = [start_py_command])
      ∨ (∃ w0 e',
           bootstrapped environ w w0 calls
           ∧ generate_worker_files environ (main_config_path environ)
               (main_data_dir environ) w0 = Raise e'
           ∧ e = ScriptError e'
           ∧ supervisord_command ∉ calls)
      ∨ (∃ w0 w1 calls0,
           bootstrapped environ w w0 calls0
           ∧ generate_worker_files environ (main_config_path environ)
               (main_data_dir environ) w0 = Ok w1
           ∧ run_process supervisord_command
               (<["SYNAPSE_NO_TLS" := "yes"]> environ) w1 = None
           ∧ e = CalledProcessError supervisord_command
           ∧ calls = calls0 ++ [supervisord_command])
  end.
Proof.
  unfold main, bootstrapped. cbv zeta.
  fold (main_config_path environ) (main_data_dir environ).
  unfold generate_base_homeserver_config, start_supervisord, check_output.
  destruct (path_exists (main_config_path environ) w).
  - rewrite generate_worker_files_no_tls.
    destruct (generate_worker_files _ _ _ w) as [w1|e'] eqn:Hrun.
    + destruct (run_process supervisord_command _ w1) as [w2|] eqn:Hsup.
      * split; [done|]. by exists w, w1, [].
      * right; right. by exists w, w1, [].
    + right; left. exists w, e'. split_and!; try done. by intros ?%elem_of_nil.
  - destruct (run_process start_py_command _ _) as [w0|] eqn:Hstart; [|by left].
    rewrite generate_worker_files_no_tls.
    destruct (generate_worker_files _ _ _ w0) as [w1|e'] eqn:Hrun.
    + destruct (run_process supervisord_command _ w1) as [w2|] eqn:Hsup.
      * split; [done|]. by exists w0, w1, [start_py_command].
      * right; right. by exists w0, w1, [start_py_command].
    + right; left. exists w0, e'. split_and!; try done.
      by intros [=]%list_elem_of_singleton.
Qed.

(** ** Appending to files that are already there *)

(** Appending a text that starts on a new line: its lines follow those
    already there. *)
Lemma lines_append old text rest :
  text = nl +:+ rest → lines (old +:+ text) = lines old ++ tail (lines text).
Proof.
  intros ->. change (nl +:+ rest) with (String "010"%char rest).
  unfold lines. rewrite split_app_sep, split_cons. by case_decide.
Qed.

Lemma nginx_read_no_target l l' ls :
  proxy_pass_line l' = None → nginx_read (l :: l' :: ls) = nginx_read (l' :: ls).
Proof. intros H. cbn [nginx_read]. rewrite H. by destruct (location_line l). Qed.

Lemma nginx_read_app before after :
  (∀ l rest, after = l :: rest → proxy_pass_line l = None) →
  nginx_read (before ++ after) = nginx_read before ++ nginx_read after.
Proof.
  intros Hafter. induction before as [|l before IH]; [done|].
  destruct before as [|l' before].
  - simpl. destruct (location_line l); [|done].
    destruct after as [|l' rest]; [done|]. by rewrite (Hafter l' rest).
  - change ((l :: l' :: before) ++ after) with (l :: l' :: (before ++ after)).
    change ((l' :: before) ++ after) with (l' :: (before ++ after)) in IH.
    destruct (proxy_pass_line l') as [target|] eqn:Htarget.
    + destruct (location_line l) as [pattern|] eqn:Hl.
      * rewrite !(nginx_read_rule _ _ _ _ _ Hl Htarget), IH. done.
      * by rewrite !(nginx_read_skip _ _ Hl).
    + by rewrite !(nginx_read_no_target _ _ _ Htarget).
Qed.

Lemma emitted_nginx_new_line insts :
  ∃ rest, emitted_nginx insts = nl +:+ rest.
Proof.
  exists (unlines (tail (lines nginx_config_template_header))
            +:+ concat_str (worker_locations <$> insts)
            +:+ nginx_config_template_end).
  reflexivity.
Qed.

Lemma nginx_rules_append_emitted old config_path port worker_types :
  nginx_rules (old +:+ emitted_nginx (instances config_path port worker_types))
  = nginx_rules old
      ++ nginx_rules (emitted_nginx (instances config_path port worker_types)).
Proof.
  destruct (emitted_nginx_new_line (instances config_path port worker_types))
    as [rest Hrest].
  unfold nginx_rules. rewrite (lines_append _ _ _ Hrest), lines_emitted_nginx.
  rewrite nginx_read_app; [done|]. by intros l rest' [= <- _].
Qed.

(** X16: the rules nginx reads in its site after a run are the rules it
    read there before, followed by the rules of the instances and the rule
    of the main process.  A catch-all that was in the file, from an
    earlier run say, stays ahead of the worker rules of this run. *)
Theorem run_adds_rules_to_the_site `{E : Externals} environ config_path data_dir
    w original_config listeners :
  ready environ config_path w original_config listeners →
  ∃ w',
    generate_worker_files environ config_path data_dir w = Ok w'
    ∧ nginx_rules (content nginx_path w')
      = nginx_rules (content nginx_path w)
          ++ (drop (length (descriptors w)) (descriptors w')
                ≫= λ d, worker_rules d.2)
          ++ [catch_all].
Proof.
  intros Hready.
  destruct (generate_worker_files_ok _ _ data_dir _ _ _ Hready) as (w' & Hrun & Hout).
  exists w'. split; [done|].
  rewrite (out_descriptors _ _ _ _ _ _ Hout), drop_app_length.
  unfold content at 1. rewrite (out_nginx _ _ _ _ _ _ Hout). simpl.
  rewrite nginx_rules_append_emitted, nginx_rules_emitted. do 2 f_equal.
  induction (instances config_path 18009 (read_worker_types environ))
    as [|wc insts IH]; [done|].
  rewrite fmap_cons, !bind_cons. by rewrite IH.
Qed.

Lemma run_adds_rules_to_the_site_witness :
  ∃ w',
    generate_worker_files (E := example_externals)
      {[ "SYNAPSE_WORKERS" := "user_dir" ]} "/data/homeserver.yaml" "/data"
      example_world = Ok w'
    ∧ nginx_rules (content nginx_path w')
      = nginx_rules (content nginx_path example_world)
          ++ (drop (length (descriptors example_world)) (descriptors w')
                ≫= λ d, worker_rules d.2)
          ++ [catch_all].
Proof.
  exact (run_adds_rules_to_the_site (E := example_externals)
           {[ "SYNAPSE_WORKERS" := "user_dir" ]} "/data/homeserver.yaml" "/data"
           example_world _ _ (example_ready _)).
Defined.

(** Two runs in a row: the catch-all of the first run is ahead of the
    worker rule of the second. *)
Example second_run_repeats_the_rules :
  let run := generate_worker_files (E := example_externals)
               {[ "SYNAPSE_WORKERS" := "user_dir" ]} "/data/homeserver.yaml"
               "/data" in
  (λ w', (λ rule, rule.2) <$> nginx_rules (content nginx_path w'))
    <$> (run example_world ≫= run)
  = Ok ["http://localhost:18009"; "http://localhost:8008";
        "http://localhost:18009"; "http://localhost:8008"].
Proof. by vm_compute. Qed.
